(** * Microinsurance dropout predictor: the scoring rule and its callers

    A shallow embedding of [dropout_predictor.py].  The script is a Streamlit
    page: a form of widgets, the pure function [calculate_dropout_risk], and a
    button handler that calls it, classifies the result and renders a panel.

    Numbers are modelled as Python has them: the widget values are Python
    [int]s (unbounded, here [Z]); the score is a Python [float], an IEEE 754
    binary64 number, here Rocq's primitive [float] whose [+] and [*] round to
    nearest-even exactly as CPython's do.  A literal such as [0.45] denotes,
    in both languages, the binary64 number closest to 45/100. *)

From Stdlib Require Import ZArith List String Bool Lia Setoid Sorted.
From Stdlib Require Import DecimalString.
From Stdlib Require Import Floats.PrimFloat Floats.SpecFloat Floats.FloatOps.
Import ListNotations.

Set Warnings "-inexact-float".

Local Open Scope Z_scope.

(** ** Results of fallible evaluation

    The only exception the scoring code can raise is the [OverflowError] of an
    [int] too large to convert to [float] (in [avg_monthly_balance * 0.3]). *)

Inductive result (A : Type) : Type :=
| Ok (a : A)
| OverflowError.

Arguments Ok {A} a.
Arguments OverflowError {A}.

Class Monad (M : Type -> Type) : Type := {
  ret : forall {A : Type}, A -> M A;
  bind : forall {A B : Type}, M A -> (A -> M B) -> M B
}.

Notation "x <- m ;; k" := (bind m (fun x => k))
  (at level 61, m at next level, right associativity).
Notation "m ;;; k" := (bind m (fun _ => k))
  (at level 61, right associativity).

#[global] Instance result_monad : Monad result := {
  ret := fun A a => Ok a;
  bind := fun A B r k =>
    match r with
    | Ok a => k a
    | OverflowError => OverflowError
    end
}.

(** ** Python's numeric tower, as far as the script uses it *)

Module PyNum.

(** [float(z)]: the integer rounded to the nearest binary64 number, ties to
    even; CPython raises [OverflowError] when the rounded value is not
    finite. *)
Definition float_of_int (z : Z) : result float :=
  match binary_normalize prec emax z 0 false with
  | S754_infinity _ => OverflowError
  | sf => Ok (SF2Prim sf)
  end.

(** [z * f] for an [int] [z] and a [float] [f]: the [int] is converted
    first, then the two floats are multiplied. *)
Definition int_mul_float (z : Z) (f : float) : result float :=
  x <- float_of_int z ;; Ok (PrimFloat.mul x f).

(** Mixed comparisons.  CPython compares an [int] with a [float] by their
    exact mathematical values (no rounding of the [int]); a NaN compares
    false with everything.  [compare_float_int f z] is the ordering of [f]
    against [z], [None] for a NaN. *)
Definition SF_compare_int (f : spec_float) (z : Z) : option comparison :=
  match f with
  | S754_nan => None
  | S754_infinity s => Some (if s then Lt else Gt)
  | S754_zero _ => Some (0 ?= z)
  | S754_finite s m e =>
      let v := if s then Z.neg m else Z.pos m in
      Some (if 0 <=? e then (v * 2 ^ e ?= z) else (v ?= z * 2 ^ (- e)))
  end.

Definition compare_float_int (f : float) (z : Z) : option comparison :=
  SF_compare_int (Prim2SF f) z.

(** [z > f] *)
Definition int_gt_float (z : Z) (f : float) : bool :=
  match compare_float_int f z with
  | Some Lt => true
  | _ => false
  end.

(** [f >= z] *)
Definition float_ge_int (f : float) (z : Z) : bool :=
  match compare_float_int f z with
  | Some Gt | Some Eq => true
  | _ => false
  end.

(** [f < z] *)
Definition float_lt_int (f : float) (z : Z) : bool :=
  match compare_float_int f z with
  | Some Lt => true
  | _ => false
  end.

(** The builtin [min(a, b)] on two floats: it keeps [a] unless [b < a]. *)
Definition py_min (a b : float) : float :=
  if PrimFloat.ltb b a then b else a.

(** A string is truthy when it is not empty. *)
Definition truthy (s : string) : bool :=
  match s with
  | EmptyString => false
  | String _ _ => true
  end.

(** [d.get(key, default)] on a dict literal, kept as its list of items. *)
Fixpoint dict_get {V : Type} (d : list (string * V)) (key : string) (default : V) : V :=
  match d with
  | [] => default
  | (k, v) :: d' => if String.eqb k key then v else dict_get d' key default
  end.

End PyNum.

Import PyNum.

(** ** The scoring function (lines 74-136) *)

Section Scoring.

Local Open Scope float_scope.

Definition regional_risk : list (string * float) :=
  [ ("Lagos"%string, 0.18); ("Enugu"%string, 0.16); ("Kaduna"%string, 0.14);
    ("Kano"%string, 0.12); ("Abuja"%string, 0.10); ("Jos"%string, 0.08);
    ("Ibadan"%string, 0.06); ("Port Harcourt"%string, 0.04) ].

(** The body of [calculate_dropout_risk] up to the cap: the value of
    [risk_score] when line 134 is reached.  [risk_score] starts as the
    [int] [0]; its first [+=] with a float converts it to [0.0], which is
    where the model starts.  A branch that misses leaves [risk_score]
    untouched. *)
Definition risk_score_before_cap
    (months_since_claim total_claims age : Z) (region : string)
    (claim_denial_rate clinic_visits distance_to_clinic
     avg_monthly_balance premium_amount : Z) : result float :=
  let risk_score := 0 in
  let risk_score :=
    if (months_since_claim >=? 12)%Z then risk_score + 0.45
    else if (months_since_claim >=? 6)%Z then risk_score + 0.30
    else if (months_since_claim >=? 3)%Z then risk_score + 0.15
    else risk_score in
  let risk_score :=
    if (total_claims =? 0)%Z then risk_score + 0.15
    else if (total_claims >? 10)%Z then risk_score + 0.20
    else if (total_claims >? 5)%Z then risk_score + 0.10
    else risk_score in
  let risk_score :=
    if (age <? 25)%Z then risk_score + 0.12
    else if (age >? 65)%Z then risk_score + 0.15
    else if (age >? 55)%Z then risk_score + 0.08
    else risk_score in
  let risk_score := risk_score + dict_get regional_risk region 0.10 in
  let risk_score :=
    if (claim_denial_rate >? 25)%Z then risk_score + 0.12
    else if (claim_denial_rate >? 15)%Z then risk_score + 0.08
    else risk_score in
  let risk_score :=
    if (clinic_visits <? 2)%Z then risk_score + 0.10
    else if (clinic_visits >? 15)%Z then risk_score + 0.05
    else risk_score in
  let risk_score :=
    if (distance_to_clinic >? 50)%Z then risk_score + 0.08
    else risk_score in
  let risk_score :=
    if (avg_monthly_balance <? 2000)%Z then risk_score + 0.10
    else if (avg_monthly_balance <? 1000)%Z then risk_score + 0.15
    else risk_score in
  threshold <- int_mul_float avg_monthly_balance 0.3 ;;
  let risk_score :=
    if int_gt_float premium_amount threshold then risk_score + 0.08
    else risk_score in
  Ok risk_score.

Definition calculate_dropout_risk
    (months_since_claim total_claims age : Z) (region : string)
    (claim_denial_rate clinic_visits distance_to_clinic
     avg_monthly_balance premium_amount : Z) : result float :=
  risk_score <- risk_score_before_cap months_since_claim total_claims age region
                  claim_denial_rate clinic_visits distance_to_clinic
                  avg_monthly_balance premium_amount ;;
  let dropout_probability := py_min risk_score 0.95 in
  Ok dropout_probability.

End Scoring.

(** ** The nine rules, one at a time

    Each rule of [calculate_dropout_risk] read as an update of [risk_score];
    [raw_score_rules] shows that the function is their
    composition in source order. *)

Section Rules.

Local Open Scope float_scope.

Definition rule_months (risk_score : float) (months_since_claim : Z) : float :=
  if (months_since_claim >=? 12)%Z then risk_score + 0.45
  else if (months_since_claim >=? 6)%Z then risk_score + 0.30
  else if (months_since_claim >=? 3)%Z then risk_score + 0.15
  else risk_score.

Definition rule_claims (risk_score : float) (total_claims : Z) : float :=
  if (total_claims =? 0)%Z then risk_score + 0.15
  else if (total_claims >? 10)%Z then risk_score + 0.20
  else if (total_claims >? 5)%Z then risk_score + 0.10
  else risk_score.

Definition rule_age (risk_score : float) (age : Z) : float :=
  if (age <? 25)%Z then risk_score + 0.12
  else if (age >? 65)%Z then risk_score + 0.15
  else if (age >? 55)%Z then risk_score + 0.08
  else risk_score.

Definition rule_region (risk_score : float) (region : string) : float :=
  risk_score + dict_get regional_risk region 0.10.

Definition rule_denial (risk_score : float) (claim_denial_rate : Z) : float :=
  if (claim_denial_rate >? 25)%Z then risk_score + 0.12
  else if (claim_denial_rate >? 15)%Z then risk_score + 0.08
  else risk_score.

Definition rule_visits (risk_score : float) (clinic_visits : Z) : float :=
  if (clinic_visits <? 2)%Z then risk_score + 0.10
  else if (clinic_visits >? 15)%Z then risk_score + 0.05
  else risk_score.

Definition rule_distance (risk_score : float) (distance_to_clinic : Z) : float :=
  if (distance_to_clinic >? 50)%Z then risk_score + 0.08
  else risk_score.

(** Lines 126-129, in the order the source tests them. *)
Definition rule_balance (risk_score : float) (avg_monthly_balance : Z) : float :=
  if (avg_monthly_balance <? 2000)%Z then risk_score + 0.10
  else if (avg_monthly_balance <? 1000)%Z then risk_score + 0.15
  else risk_score.

(** Lines 131-132, once [avg_monthly_balance * 0.3] has been computed. *)
Definition rule_ratio (risk_score : float) (premium_amount : Z) (threshold : float) : float :=
  if int_gt_float premium_amount threshold then risk_score + 0.08
  else risk_score.

End Rules.

(** ** Profiles and their declared domains *)

Record BeneficiaryProfile : Type := {
  months_since_claim : Z;
  total_claims : Z;
  age : Z;
  region : string;
  claim_denial_rate : Z;
  clinic_visits : Z;
  distance_to_clinic : Z;
  avg_monthly_balance : Z;
  premium_amount : Z
}.

(** The call of lines 146-149 on the fields of a profile. *)
Definition score (p : BeneficiaryProfile) : result float :=
  calculate_dropout_risk
    (months_since_claim p) (total_claims p) (age p) (region p)
    (claim_denial_rate p) (clinic_visits p) (distance_to_clinic p)
    (avg_monthly_balance p) (premium_amount p).

Definition raw_score (p : BeneficiaryProfile) : result float :=
  risk_score_before_cap
    (months_since_claim p) (total_claims p) (age p) (region p)
    (claim_denial_rate p) (clinic_visits p) (distance_to_clinic p)
    (avg_monthly_balance p) (premium_amount p).

(** Rules two to nine on the inputs of [p], given the value [threshold] of
    [avg_monthly_balance * 0.3]. *)
Definition later_rules (p : BeneficiaryProfile) (threshold : float)
    (risk_score : float) : float :=
  rule_ratio
    (rule_balance
       (rule_distance
          (rule_visits
             (rule_denial
                (rule_region
                   (rule_age
                      (rule_claims risk_score (total_claims p))
                      (age p))
                   (region p))
                (claim_denial_rate p))
             (clinic_visits p))
          (distance_to_clinic p))
       (avg_monthly_balance p))
    (premium_amount p) threshold.

(** The ranges the number widgets enforce ([min_value], [max_value]); the
    region is left free. *)
Definition in_domain (p : BeneficiaryProfile) : Prop :=
  0 <= months_since_claim p <= 120 /\
  0 <= total_claims p <= 50 /\
  18 <= age p <= 80 /\
  0 <= claim_denial_rate p <= 100 /\
  0 <= clinic_visits p <= 50 /\
  0 <= distance_to_clinic p <= 200 /\
  0 <= avg_monthly_balance p <= 100000 /\
  100 <= premium_amount p <= 10000.

Definition region_options : list string :=
  [ "Lagos"; "Enugu"; "Kaduna"; "Kano"; "Abuja"; "Jos"; "Ibadan"; "Port Harcourt" ]%string.

(** ** The page: widgets, button handler, rendered panel (lines 46-71, 138-256) *)

Record Form : Type := {
  beneficiary_id : string;
  gender : string;
  profile : BeneficiaryProfile
}.

Definition gender_options : list string := [ "Male"; "Female" ]%string.

(** What the widgets can hand to the script: numbers within [min_value] and
    [max_value], select boxes on one of their options, any text as id. *)
Definition in_widget_ranges (f : Form) : Prop :=
  in_domain (profile f) /\
  In (region (profile f)) region_options /\
  In (gender f) gender_options.

(** The lines appended to [risk_factors] (lines 207-220), each an f-string
    template with the value it interpolates. *)
Inductive risk_factor : Type :=
| MonthsWithoutClaims (months_since_claim : Z)
| NoClaimsHistory
| HighClaimFrequency (total_claims : Z)
| AgeRiskFactor (age : Z)
| HighRiskRegion (region : string)
| HighDenialRate (claim_denial_rate : Z)
| LowBalance (avg_monthly_balance : Z).

(** The fixed texts of the status boxes. *)
Inductive message : Type :=
| NoMajorRiskFactorsIdentified
| UrgentActionRequired
| ProactiveIntervention
| StandardMonitoring
| PleaseEnterBeneficiaryId
| ExampleIds.

Inductive heading : Type :=
| KeyRiskFactors
| Recommendations.

(** What one run of the result column does, in order: the call of the
    scoring function and the Streamlit elements it renders. *)
Inductive event : Type :=
| Call_calculate_dropout_risk (args : BeneficiaryProfile)
| PredictionBox (risk_class outcome risk_level : string)
    (dropout_percentage : float) (beneficiary_id : string)
| GaugeChart (value : float) (color : string)
| StMarkdown (h : heading)
| FactorLine (factor : risk_factor)
| StSuccess (m : message)
| StWarning (m : message)
| StInfo (m : message)
| StError (m : message).

(** Effects of the handler: a log of events, and a result that stops the run
    at the first exception. *)
Definition ui (A : Type) : Type := list event -> list event * result A.

#[global] Instance ui_monad : Monad ui := {
  ret := fun A a log => (log, Ok a);
  bind := fun A B m k log =>
    match m log with
    | (log', Ok a) => k a log'
    | (log', OverflowError) => (log', OverflowError)
    end
}.

Definition emit (e : event) : ui unit := fun log => (log ++ [e], Ok tt).

Definition lift {A : Type} (r : result A) : ui A := fun log => (log, r).

Fixpoint for_each {A : Type} (l : list A) (body : A -> ui unit) : ui unit :=
  match l with
  | [] => ret tt
  | x :: l' => body x ;;; for_each l' body
  end.

Definition run {A : Type} (m : ui A) : list event * result A := m [].

(** Lines 154-163. *)
Record classification : Type := {
  outcome : string;
  risk_level : string;
  risk_class : string;
  color : string
}.

Definition classify (dropout_percentage : float) : classification :=
  if float_ge_int dropout_percentage 50 then
    {| outcome := "WILL DROPOUT";
       risk_level := if float_ge_int dropout_percentage 70
                     then "HIGH RISK" else "MEDIUM RISK";
       risk_class := "high-risk";
       color := "#f44336" |}
  else
    {| outcome := "WILL NOT DROPOUT";
       risk_level := "LOW RISK";
       risk_class := "low-risk";
       color := "#4caf50" |}.

(** Lines 205-220. *)
Definition risk_factors (p : BeneficiaryProfile) : list risk_factor :=
  let risk_factors := [] in
  let risk_factors :=
    if months_since_claim p >=? 6
    then risk_factors ++ [MonthsWithoutClaims (months_since_claim p)]
    else risk_factors in
  let risk_factors :=
    if total_claims p =? 0 then risk_factors ++ [NoClaimsHistory]
    else if total_claims p >? 5
    then risk_factors ++ [HighClaimFrequency (total_claims p)]
    else risk_factors in
  let risk_factors :=
    if (age p <? 25) || (age p >? 55)
    then risk_factors ++ [AgeRiskFactor (age p)]
    else risk_factors in
  let risk_factors :=
    if existsb (String.eqb (region p)) [ "Lagos"; "Enugu"; "Kaduna" ]%string
    then risk_factors ++ [HighRiskRegion (region p)]
    else risk_factors in
  let risk_factors :=
    if claim_denial_rate p >? 15
    then risk_factors ++ [HighDenialRate (claim_denial_rate p)]
    else risk_factors in
  let risk_factors :=
    if avg_monthly_balance p <? 2000
    then risk_factors ++ [LowBalance (avg_monthly_balance p)]
    else risk_factors in
  risk_factors.

(** Lines 222-226: a non-empty list is truthy. *)
Definition show_risk_factors (risk_factors : list risk_factor) : ui unit :=
  match risk_factors with
  | _ :: _ => for_each risk_factors (fun factor => emit (FactorLine factor))
  | [] => emit (StSuccess NoMajorRiskFactorsIdentified)
  end.

(** Lines 230-252. *)
Definition show_recommendation (dropout_percentage : float) : ui unit :=
  if float_ge_int dropout_percentage 70 then emit (StError UrgentActionRequired)
  else if float_ge_int dropout_percentage 50 then emit (StWarning ProactiveIntervention)
  else emit (StSuccess StandardMonitoring).

(** Lines 151-252: everything the handler renders once it has the score.
    [dropout_prob * 100] converts the [int] [100] to the float [100.0]
    exactly. *)
Definition show_results (f : Form) (dropout_prob : float) : ui unit :=
  let dropout_percentage := (dropout_prob * 100)%float in
  let c := classify dropout_percentage in
  emit (PredictionBox (risk_class c) (outcome c) (risk_level c)
          dropout_percentage (beneficiary_id f)) ;;;
  emit (GaugeChart dropout_percentage (color c)) ;;;
  emit (StMarkdown KeyRiskFactors) ;;;
  show_risk_factors (risk_factors (profile f)) ;;;
  emit (StMarkdown Recommendations) ;;;
  show_recommendation dropout_percentage.

(** Lines 144-256: the body of the button's [if]. *)
Definition button_handler (f : Form) : ui unit :=
  if truthy (beneficiary_id f) then
    dropout_prob <- (emit (Call_calculate_dropout_risk (profile f)) ;;;
                     lift (score (profile f))) ;;
    show_results f dropout_prob
  else
    emit (StWarning PleaseEnterBeneficiaryId) ;;;
    emit (StInfo ExampleIds).

(** Line 142: [st.button] is true on the run its click triggers. *)
Definition result_column (clicked : bool) (f : Form) : ui unit :=
  if clicked then button_handler f else ret tt.

(** Counting what a run did. *)
Definition is_call (e : event) : bool :=
  match e with
  | Call_calculate_dropout_risk _ => true
  | _ => false
  end.

Definition is_prediction (e : event) : bool :=
  match e with
  | PredictionBox _ _ _ _ _ => true
  | _ => false
  end.

Definition count (which : event -> bool) (log : list event) : nat :=
  List.length (filter which log).


Definition with_months (m : Z) (p : BeneficiaryProfile) : BeneficiaryProfile :=
  {| months_since_claim := m; total_claims := total_claims p; age := age p;
     region := region p; claim_denial_rate := claim_denial_rate p;
     clinic_visits := clinic_visits p;
     distance_to_clinic := distance_to_clinic p;
     avg_monthly_balance := avg_monthly_balance p;
     premium_amount := premium_amount p |}.

(** ** The explainer's thresholds, as the specification words them

    [spec_triggers p f] says that the factor line [f] is due for [p]; [rank]
    is the position of a line's rule in the evaluation order. *)

Definition spec_triggers (p : BeneficiaryProfile) (f : risk_factor) : Prop :=
  match f with
  | MonthsWithoutClaims m => m = months_since_claim p /\ m >= 6
  | NoClaimsHistory => total_claims p = 0
  | HighClaimFrequency n => n = total_claims p /\ n <> 0 /\ n > 5
  | AgeRiskFactor a => a = age p /\ (a < 25 \/ a > 55)
  | HighRiskRegion r =>
      r = region p /\ (r = "Lagos" \/ r = "Enugu" \/ r = "Kaduna")%string
  | HighDenialRate d => d = claim_denial_rate p /\ d > 15
  | LowBalance b => b = avg_monthly_balance p /\ b < 2000
  end.

Definition rank (f : risk_factor) : nat :=
  match f with
  | MonthsWithoutClaims _ => 0
  | NoClaimsHistory | HighClaimFrequency _ => 1
  | AgeRiskFactor _ => 2
  | HighRiskRegion _ => 3
  | HighDenialRate _ => 4
  | LowBalance _ => 5
  end.

(** ** Enumerating what the rules can do

    Every rule either keeps [risk_score] or adds one of a few constants, so
    the scores the function can produce form a finite list that can be
    computed and inspected.  A stage lists the updates one rule can make;
    [reach] pushes a list of starting states through the stages. *)

Section Reach.

Context {A : Type}.

Definition apply_all (fs : list (A -> A)) (s : A) : A :=
  fold_left (fun s f => f s) fs s.

Definition expand (opts : list (A -> A)) (L : list A) : list A :=
  flat_map (fun s => map (fun f => f s) opts) L.

Definition reach (stages : list (list (A -> A))) (L : list A) : list A :=
  fold_left (fun L opts => expand opts L) stages L.

End Reach.

Definition keep : float -> float := fun s => s.

Definition add (c : float) : float -> float := fun s => (s + c)%float.

(** The same update on two scores at once, for comparing two runs. *)
Definition both (f : float -> float) : float * float -> float * float :=
  fun st => (f (fst st), f (snd st)).

Section Stages.

Local Open Scope float_scope.

Definition months_stage : list (float -> float) := [keep; add 0.15; add 0.30; add 0.45].
Definition claims_stage : list (float -> float) := [keep; add 0.15; add 0.20; add 0.10].
Definition age_stage : list (float -> float) := [keep; add 0.12; add 0.15; add 0.08].
Definition region_stage : list (float -> float) := map add (map snd regional_risk ++ [0.10]).
Definition denial_stage : list (float -> float) := [keep; add 0.12; add 0.08].
Definition visits_stage : list (float -> float) := [keep; add 0.10; add 0.05].
Definition distance_stage : list (float -> float) := [keep; add 0.08].
Definition balance_stage : list (float -> float) := [keep; add 0.10].
Definition ratio_stage : list (float -> float) := [keep; add 0.08].

Definition stages_after_months : list (list (float -> float)) :=
  [ claims_stage; age_stage; region_stage; denial_stage; visits_stage;
    distance_stage; balance_stage; ratio_stage ].

Definition all_raw_scores : list float :=
  reach (months_stage :: stages_after_months) [0].

Definition all_scores : list float :=
  map (fun risk_score => py_min risk_score 0.95) all_raw_scores.

(** Pairs of scores after the months rule for a smaller and a larger number
    of months, and the pairs of raw scores they lead to when every later rule
    makes the same update on both. *)
Definition months_tiers : list float := map (fun f => f 0) months_stage.

Definition months_pairs : list (float * float) :=
  filter (fun st => fst st <=? snd st) (list_prod months_tiers months_tiers).

Definition all_raw_pairs : list (float * float) :=
  reach (map (map both) stages_after_months) months_pairs.

End Stages.

(** Checking a predicate on [n] consecutive integers from [lo]. *)
Fixpoint forall_from (P : Z -> bool) (lo : Z) (n : nat) : bool :=
  match n with
  | O => true
  | S n' => P lo && forall_from P (lo + 1) n'
  end.

(** On a balance [b], the premium test of line 131 agrees with the exact
    comparison [10 * premium > 3 * b]: the least premium that passes it
    exactly passes the float test, and its predecessor does not. *)
Definition ratio_test_exact_at (b : Z) : bool :=
  match int_mul_float b 0.3%float with
  | Ok threshold =>
      int_gt_float (3 * b / 10 + 1) threshold
      && negb (int_gt_float (3 * b / 10) threshold)
  | OverflowError => false
  end.

(** The facts read off the enumerations. *)
Definition score_in_bounds (r : float) : bool :=
  ((0 <=? r) && (0.04 <=? r) && (r <=? 0.95))%float.

Definition percentage_is_ordered (r : float) : bool :=
  float_ge_int (r * 100)%float 50 || float_lt_int (r * 100)%float 50.

Definition capped_in_order (st : float * float) : bool :=
  (py_min (fst st) 0.95 <=? py_min (snd st) 0.95)%float.

Definition example1 : BeneficiaryProfile :=
  {| months_since_claim := 12; total_claims := 0; age := 35; region := "Lagos";
     claim_denial_rate := 10; clinic_visits := 3; distance_to_clinic := 15;
     avg_monthly_balance := 5000; premium_amount := 1500 |}.

Definition example2 : BeneficiaryProfile :=
  {| months_since_claim := 1; total_claims := 2; age := 35;
     region := "Port Harcourt";
     claim_denial_rate := 5; clinic_visits := 3; distance_to_clinic := 10;
     avg_monthly_balance := 5000; premium_amount := 1500 |}.

(** A profile on which only the balance rule and the region contribute. *)
Definition low_balance_profile : BeneficiaryProfile :=
  {| months_since_claim := 1; total_claims := 2; age := 35;
     region := "Port Harcourt";
     claim_denial_rate := 5; clinic_visits := 3; distance_to_clinic := 10;
     avg_monthly_balance := 500; premium_amount := 100 |}.

(** A profile that takes the largest branch of every rule. *)
Definition worst_profile : BeneficiaryProfile :=
  {| months_since_claim := 12; total_claims := 11; age := 66; region := "Lagos";
     claim_denial_rate := 26; clinic_visits := 1; distance_to_clinic := 51;
     avg_monthly_balance := 999; premium_amount := 300 |}.

Definition example_form : Form :=
  {| beneficiary_id := "BEN001234"; gender := "Female"; profile := example1 |}.

(** ** Comparing two runs field by field

    [upper_pairs] lists, for a stage given in increasing order, the pairs of
    updates in which the second run adds at least what the first adds. *)

Fixpoint upper_pairs (opts : list (float -> float))
  : list (float * float -> float * float) :=
  match opts with
  | [] => []
  | f :: opts' =>
      map (fun g st => (f (fst st), g (snd st))) (f :: opts') ++ upper_pairs opts'
  end.

Definition denial_ascending : list (float -> float) :=
  [keep; add 0.08%float; add 0.12%float].

Definition ordered_stages : list (list (float * float -> float * float)) :=
  [ upper_pairs months_stage; map both claims_stage; map both age_stage;
    map both region_stage; upper_pairs denial_ascending; map both visits_stage;
    upper_pairs distance_stage; upper_pairs balance_stage;
    upper_pairs ratio_stage ].

Definition all_ordered_runs : list (float * float) :=
  reach ordered_stages [(0%float, 0%float)].

(** [example2] with every monotone field moved to its riskier end. *)
Definition worst_profile_same_person : BeneficiaryProfile :=
  {| months_since_claim := 12; total_claims := 2; age := 35;
     region := "Port Harcourt";
     claim_denial_rate := 26; clinic_visits := 3; distance_to_clinic := 51;
     avg_monthly_balance := 999; premium_amount := 1500 |}.

(** ** The lookup, the explainer and the scorer side by side *)

Definition with_region (r : string) (p : BeneficiaryProfile) : BeneficiaryProfile :=
  {| months_since_claim := months_since_claim p;
     total_claims := total_claims p; age := age p;
     region := r; claim_denial_rate := claim_denial_rate p;
     clinic_visits := clinic_visits p;
     distance_to_clinic := distance_to_clinic p;
     avg_monthly_balance := avg_monthly_balance p;
     premium_amount := premium_amount p |}.

(** A rule misses when it leaves every [risk_score] as it found it. *)
Definition rule_misses (rule : float -> float) : Prop :=
  forall risk_score, rule risk_score = risk_score.

(** [float_ge_int] on a float already decoded. *)
Definition SF_ge_int (f : spec_float) (z : Z) : bool :=
  match SF_compare_int f z with
  | Some Gt | Some Eq => true
  | _ => false
  end.

(** What the rules can do on a profile for which the explainer lists no
    factor. *)
Definition quiet_stages : list (list (float -> float)) :=
  [ [keep; add 0.15%float]; [keep]; [keep];
    map add [0.12; 0.10; 0.08; 0.06; 0.04; 0.10]%float;
    [keep]; visits_stage; distance_stage; [keep]; ratio_stage ].

Definition all_quiet_scores : list float :=
  map (fun risk_score => py_min risk_score 0.95%float)
      (reach quiet_stages [0%float]).

Definition quiet_score_is_moderate (r : float) : bool :=
  (r <=? 0.53)%float && negb (float_ge_int (r * 100)%float 70).

Definition quiet_dropout_profile : BeneficiaryProfile :=
  {| months_since_claim := 5; total_claims := 2; age := 35; region := "Kano";
     claim_denial_rate := 10; clinic_visits := 1; distance_to_clinic := 51;
     avg_monthly_balance := 2000; premium_amount := 700 |}.

Definition unlisted_region_profile : BeneficiaryProfile :=
  with_region "lagos" example1.

(** ** The percentage as the panel prints it (line 170)

    [f"{dropout_percentage:.1f}"] prints the float rounded to one decimal,
    correctly: the exact binary value times ten is rounded to the nearest
    integer, ties to even.  [tenths_1f] is that integer for the magnitude of
    a finite float, [sign_1f] its sign and [format_1f] the text. *)

Definition round_half_even (n d : Z) : Z :=
  let q := n / d in
  let r := n mod d in
  if 2 * r <? d then q
  else if d <? 2 * r then q + 1
  else if Z.even q then q else q + 1.

Definition SF_tenths (f : spec_float) : option Z :=
  match f with
  | S754_zero _ => Some 0
  | S754_finite _ m e =>
      Some (if 0 <=? e then Z.pos m * 10 * 2 ^ e
            else round_half_even (Z.pos m * 10) (2 ^ (- e)))
  | _ => None
  end.

Definition tenths_1f (f : float) : option Z := SF_tenths (Prim2SF f).

Definition decimal (n : Z) : string :=
  NilZero.string_of_uint (N.to_uint (Z.to_N n)).

Definition SF_is_negative (f : spec_float) : bool :=
  match f with
  | S754_zero s | S754_finite s _ _ | S754_infinity s => s
  | S754_nan => false
  end.

Definition sign_1f (f : float) : string :=
  if SF_is_negative (Prim2SF f) then "-" else "".

Definition format_1f (f : float) : string :=
  match tenths_1f f with
  | Some t => sign_1f f ++ decimal (t / 10) ++ "." ++ decimal (t mod 10)
  | None =>
      match Prim2SF f with
      | S754_nan => "nan"
      | _ => sign_1f f ++ "inf"
      end
  end.

(** ** The weights in exact decimal arithmetic

    The constants of [calculate_dropout_risk] read as hundredths and summed
    as integers, branch by branch as the source takes them; the premium test
    is the exact comparison of [premium_amount] with three tenths of the
    balance.  This is the score free of rounding, against which the float
    computation is compared. *)

Definition points_months (months_since_claim : Z) : Z :=
  if months_since_claim >=? 12 then 45
  else if months_since_claim >=? 6 then 30
  else if months_since_claim >=? 3 then 15
  else 0.

Definition points_claims (total_claims : Z) : Z :=
  if total_claims =? 0 then 15
  else if total_claims >? 10 then 20
  else if total_claims >? 5 then 10
  else 0.

Definition points_age (age : Z) : Z :=
  if age <? 25 then 12
  else if age >? 65 then 15
  else if age >? 55 then 8
  else 0.

Definition regional_points : list (string * Z) :=
  [ ("Lagos", 18); ("Enugu", 16); ("Kaduna", 14); ("Kano", 12);
    ("Abuja", 10); ("Jos", 8); ("Ibadan", 6); ("Port Harcourt", 4) ]%string.

Definition points_region (region : string) : Z :=
  dict_get regional_points region 10.

Definition points_denial (claim_denial_rate : Z) : Z :=
  if claim_denial_rate >? 25 then 12
  else if claim_denial_rate >? 15 then 8
  else 0.

Definition points_visits (clinic_visits : Z) : Z :=
  if clinic_visits <? 2 then 10
  else if clinic_visits >? 15 then 5
  else 0.

Definition points_distance (distance_to_clinic : Z) : Z :=
  if distance_to_clinic >? 50 then 8 else 0.

Definition points_balance (avg_monthly_balance : Z) : Z :=
  if avg_monthly_balance <? 2000 then 10
  else if avg_monthly_balance <? 1000 then 15
  else 0.

Definition points_ratio (premium_amount avg_monthly_balance : Z) : Z :=
  if 3 * avg_monthly_balance <? 10 * premium_amount then 8 else 0.

Definition exact_points (p : BeneficiaryProfile) : Z :=
  points_months (months_since_claim p) + points_claims (total_claims p)
  + points_age (age p) + points_region (region p)
  + points_denial (claim_denial_rate p) + points_visits (clinic_visits p)
  + points_distance (distance_to_clinic p)
  + points_balance (avg_monthly_balance p)
  + points_ratio (premium_amount p) (avg_monthly_balance p).

Definition exact_percentage (p : BeneficiaryProfile) : Z :=
  Z.min (exact_points p) 95.

(** The points along the path the float computation takes: as
    [exact_points], with the premium rule counted when the test of line 131
    succeeds on the float [threshold]. *)
Definition path_points (p : BeneficiaryProfile) (threshold : float) : Z :=
  points_months (months_since_claim p) + points_claims (total_claims p)
  + points_age (age p) + points_region (region p)
  + points_denial (claim_denial_rate p) + points_visits (clinic_visits p)
  + points_distance (distance_to_clinic p)
  + points_balance (avg_monthly_balance p)
  + (if int_gt_float (premium_amount p) threshold then 8 else 0).

(** A float score together with its exact points. *)
Definition keep_points : float * Z -> float * Z := fun st => st.

Definition add_points (c : float) (k : Z) : float * Z -> float * Z :=
  fun st => ((fst st + c)%float, snd st + k).

Definition pointed_stages : list (list (float * Z -> float * Z)) :=
  [ [keep_points; add_points 0.15 15; add_points 0.30 30; add_points 0.45 45];
    [keep_points; add_points 0.15 15; add_points 0.20 20; add_points 0.10 10];
    [keep_points; add_points 0.12 12; add_points 0.15 15; add_points 0.08 8];
    [add_points 0.18 18; add_points 0.16 16; add_points 0.14 14;
     add_points 0.12 12; add_points 0.10 10; add_points 0.08 8;
     add_points 0.06 6; add_points 0.04 4];
    [keep_points; add_points 0.12 12; add_points 0.08 8];
    [keep_points; add_points 0.10 10; add_points 0.05 5];
    [keep_points; add_points 0.08 8];
    [keep_points; add_points 0.10 10];
    [keep_points; add_points 0.08 8] ]%float.

Definition all_pointed_scores : list (float * Z) :=
  reach pointed_stages [(0%float, 0)].

(** On a raw float score and its points, with [r] the capped score and [k]
    the capped points: the percentage [r * 100] is a positive float
    [m * 2 ^ e] within half a tenth of [k]; the float tests [0.5 <= r] and
    [0.7 <= r] are the exact tests [50 <= k] and [70 <= k] off the
    thresholds and the tests of [r * 100] against 50 and 70 on them; and
    [r < 0.5] is the negation of [0.5 <= r]. *)
Definition score_close_to_points (st : float * Z) : bool :=
  let r := py_min (fst st) 0.95%float in
  let k := Z.min (snd st) 95 in
  match Prim2SF (r * 100)%float with
  | S754_finite false m e =>
      let scale := 2 ^ (- e) in
      (e <? 0)
      && (2 * Z.abs (Z.pos m * 10 - k * 10 * scale) <? scale)
      && Bool.eqb (0.5 <=? r)%float
           (if k =? 50 then SF_ge_int (S754_finite false m e) 50 else 50 <=? k)
      && Bool.eqb (0.7 <=? r)%float
           (if k =? 70 then SF_ge_int (S754_finite false m e) 70 else 70 <=? k)
      && Bool.eqb (r <? 0.5)%float (negb (0.5 <=? r)%float)
  | _ => false
  end.

(** Exactly 70 in decimal, below 70 as a float. *)
Definition boundary_profile : BeneficiaryProfile :=
  {| months_since_claim := 1; total_claims := 2; age := 20; region := "Abuja";
     claim_denial_rate := 26; clinic_visits := 1; distance_to_clinic := 51;
     avg_monthly_balance := 1500; premium_amount := 500 |}.

(** ** Proof steps used repeatedly

    [in_list] finds an element in an explicit list; [pick f] gives the
    update [f] a rule makes; [choose_disjunct] proves a disjunction by the
    first disjunct that closes by arithmetic. *)
Ltac in_list := simpl; repeat (first [ left; reflexivity | right ]).
Ltac pick f := exists f; split; [ in_list | intro; reflexivity ].

Ltac choose_disjunct :=
  solve [ repeat split; (reflexivity || assumption || lia || tauto) ]
  || (left; choose_disjunct) || (right; choose_disjunct).

Ltac pick_pair f g :=
  exists (fun st : float * float => (f (fst st), g (snd st)));
  split; [ in_list | intro; reflexivity ].

Ltac chain E H H' :=
  match type of H with
  | (?a, ?b) = _ =>
      pose proof (E (a, b)) as H'; cbn [fst snd] in H'; rewrite H in H'
  end.

(** Two floats that evaluate to different numbers are not equal. *)
Ltac float_neq H :=
  apply (f_equal (fun x => (x =? 0)%float)) in H; vm_compute in H;
  discriminate H.

Ltac destruct_pair :=
  match goal with
  | st : (float * Z)%type |- _ => destruct st; reflexivity
  end.

Ltac pick_points F :=
  exists F; split; [ in_list | intro; rewrite ?Z.add_0_r; destruct_pair ].

(** * Properties *)

(** ** The function is the composition of its rules *)

Lemma raw_score_rules (p : BeneficiaryProfile) :
  raw_score p
  = (threshold <- int_mul_float (avg_monthly_balance p) 0.3%float ;;
     Ok (later_rules p threshold (rule_months 0%float (months_since_claim p)))).
Proof. reflexivity. Qed.

Lemma score_raw_score (p : BeneficiaryProfile) :
  score p = (risk_score <- raw_score p ;; Ok (py_min risk_score 0.95%float)).
Proof. reflexivity. Qed.

(** ** Reachability through stages *)

Lemma expand_In {A : Type} (opts : list (A -> A)) (L : list A) (f : A -> A) (s : A) :
  In s L -> In f opts -> In (f s) (expand opts L).
Proof.
  intros Hs Hf. unfold expand. apply in_flat_map.
  exists s. split; [exact Hs|].
  exact (in_map (fun g => g s) opts f Hf).
Qed.

Lemma reach_In {A : Type} (stages : list (list (A -> A))) :
  forall (fs : list (A -> A)) (L : list A) (s : A),
    Forall2 (fun f opts => In f opts) fs stages ->
    In s L ->
    In (apply_all fs s) (reach stages L).
Proof.
  induction stages as [|opts stages IH]; intros fs L s HF Hs;
    inversion HF; subst; simpl.
  - exact Hs.
  - apply IH; [assumption|]. now apply expand_In.
Qed.

Lemma apply_all_both (fs : list (float -> float)) :
  forall a b, apply_all (map both fs) (a, b) = (apply_all fs a, apply_all fs b).
Proof.
  induction fs as [|f fs IH]; intros a b; [reflexivity|].
  simpl. unfold both at 1. simpl. apply IH.
Qed.

Lemma Forall2_both (fs : list (float -> float)) (stages : list (list (float -> float))) :
  Forall2 (fun f opts => In f opts) fs stages ->
  Forall2 (fun f opts => In f opts) (map both fs) (map (map both) stages).
Proof.
  induction 1; simpl; constructor; [now apply in_map | assumption].
Qed.

(** ** Each rule makes one of the updates of its stage *)

Lemma rule_months_stage (m : Z) :
  exists f, In f months_stage /\ forall s, rule_months s m = f s.
Proof.
  unfold rule_months.
  destruct (m >=? 12); [pick (add 0.45%float)|].
  destruct (m >=? 6); [pick (add 0.30%float)|].
  destruct (m >=? 3); [pick (add 0.15%float) | pick keep].
Qed.

Lemma rule_claims_stage (c : Z) :
  exists f, In f claims_stage /\ forall s, rule_claims s c = f s.
Proof.
  unfold rule_claims.
  destruct (c =? 0); [pick (add 0.15%float)|].
  destruct (c >? 10); [pick (add 0.20%float)|].
  destruct (c >? 5); [pick (add 0.10%float) | pick keep].
Qed.

Lemma rule_age_stage (a : Z) :
  exists f, In f age_stage /\ forall s, rule_age s a = f s.
Proof.
  unfold rule_age.
  destruct (a <? 25); [pick (add 0.12%float)|].
  destruct (a >? 65); [pick (add 0.15%float)|].
  destruct (a >? 55); [pick (add 0.08%float) | pick keep].
Qed.

Lemma dict_get_In {V : Type} (d : list (string * V)) (key : string) (default : V) :
  In (dict_get d key default) (map snd d ++ [default]).
Proof.
  induction d as [|[k v] d IH]; simpl.
  - now left.
  - destruct (String.eqb k key); [now left | now right].
Qed.

Lemma rule_region_stage (r : string) :
  exists f, In f region_stage /\ forall s, rule_region s r = f s.
Proof.
  exists (add (dict_get regional_risk r 0.10%float)). split; [|reflexivity].
  apply in_map, dict_get_In.
Qed.

Lemma rule_denial_stage (d : Z) :
  exists f, In f denial_stage /\ forall s, rule_denial s d = f s.
Proof.
  unfold rule_denial.
  destruct (d >? 25); [pick (add 0.12%float)|].
  destruct (d >? 15); [pick (add 0.08%float) | pick keep].
Qed.

Lemma rule_visits_stage (v : Z) :
  exists f, In f visits_stage /\ forall s, rule_visits s v = f s.
Proof.
  unfold rule_visits.
  destruct (v <? 2); [pick (add 0.10%float)|].
  destruct (v >? 15); [pick (add 0.05%float) | pick keep].
Qed.

Lemma rule_distance_stage (d : Z) :
  exists f, In f distance_stage /\ forall s, rule_distance s d = f s.
Proof.
  unfold rule_distance.
  destruct (d >? 50); [pick (add 0.08%float) | pick keep].
Qed.

(** The second branch of the balance rule is never taken: a balance that
    fails [< 2000] fails [< 1000] too. *)
Lemma rule_balance_cases (s : float) (b : Z) :
  rule_balance s b = if b <? 2000 then (s + 0.10)%float else s.
Proof.
  unfold rule_balance.
  destruct (Z.ltb_spec b 2000); [reflexivity|].
  destruct (Z.ltb_spec b 1000); [lia | reflexivity].
Qed.

Lemma rule_balance_stage (b : Z) :
  exists f, In f balance_stage /\ forall s, rule_balance s b = f s.
Proof.
  destruct (b <? 2000) eqn:E.
  - exists (add 0.10%float). split; [in_list|].
    intro s. rewrite rule_balance_cases, E. reflexivity.
  - exists keep. split; [in_list|].
    intro s. rewrite rule_balance_cases, E. reflexivity.
Qed.

Lemma rule_ratio_stage (premium : Z) (threshold : float) :
  exists f, In f ratio_stage /\ forall s, rule_ratio s premium threshold = f s.
Proof.
  unfold rule_ratio.
  destruct (int_gt_float premium threshold); [pick (add 0.08%float) | pick keep].
Qed.

Lemma later_rules_stages (p : BeneficiaryProfile) (threshold : float) :
  exists fs,
    Forall2 (fun f opts => In f opts) fs stages_after_months /\
    forall s, later_rules p threshold s = apply_all fs s.
Proof.
  destruct (rule_claims_stage (total_claims p)) as (f2 & I2 & E2).
  destruct (rule_age_stage (age p)) as (f3 & I3 & E3).
  destruct (rule_region_stage (region p)) as (f4 & I4 & E4).
  destruct (rule_denial_stage (claim_denial_rate p)) as (f5 & I5 & E5).
  destruct (rule_visits_stage (clinic_visits p)) as (f6 & I6 & E6).
  destruct (rule_distance_stage (distance_to_clinic p)) as (f7 & I7 & E7).
  destruct (rule_balance_stage (avg_monthly_balance p)) as (f8 & I8 & E8).
  destruct (rule_ratio_stage (premium_amount p) threshold) as (f9 & I9 & E9).
  exists [f2; f3; f4; f5; f6; f7; f8; f9]. split.
  - unfold stages_after_months.
    repeat (apply Forall2_cons; [assumption|]). apply Forall2_nil.
  - intro s. unfold later_rules.
    rewrite E9, E8, E7, E6, E5, E4, E3, E2. reflexivity.
Qed.

Lemma raw_score_reachable (p : BeneficiaryProfile) (raw : float) :
  raw_score p = Ok raw -> In raw all_raw_scores.
Proof.
  rewrite raw_score_rules. intro H.
  destruct (int_mul_float (avg_monthly_balance p) 0.3%float) as [t|];
    simpl in H; [|discriminate].
  injection H as <-.
  destruct (rule_months_stage (months_since_claim p)) as (f1 & I1 & E1).
  destruct (later_rules_stages p t) as (fs & HF & E).
  rewrite E, E1.
  change (apply_all fs (f1 0%float)) with (apply_all (f1 :: fs) 0%float).
  unfold all_raw_scores. apply reach_In.
  - constructor; assumption.
  - now left.
Qed.

Lemma score_reachable (p : BeneficiaryProfile) (r : float) :
  score p = Ok r -> In r all_scores.
Proof.
  rewrite score_raw_score. intro H.
  destruct (raw_score p) as [raw|] eqn:E; simpl in H; [|discriminate].
  injection H as <-. unfold all_scores.
  apply (in_map (fun risk_score => py_min risk_score 0.95%float)).
  exact (raw_score_reachable p raw E).
Qed.

(** ** What the enumerations show *)

Lemma all_scores_in_bounds : forallb score_in_bounds all_scores = true.
Proof. vm_compute. reflexivity. Qed.

Lemma all_scores_ordered : forallb percentage_is_ordered all_scores = true.
Proof. vm_compute. reflexivity. Qed.

Lemma all_raw_pairs_in_order : forallb capped_in_order all_raw_pairs = true.
Proof. vm_compute. reflexivity. Qed.

Lemma ratio_test_exact_on_domain :
  forall_from ratio_test_exact_at 0 (Z.to_nat 100001) = true.
Proof. vm_compute. reflexivity. Qed.

Lemma forall_from_spec (P : Z -> bool) (n : nat) :
  forall lo, forall_from P lo n = true ->
  forall z, lo <= z < lo + Z.of_nat n -> P z = true.
Proof.
  induction n as [|n IH]; intros lo H z Hz.
  - simpl in Hz. lia.
  - simpl in H. apply andb_true_iff in H. destruct H as [H0 H1].
    destruct (Z.eq_dec z lo) as [->|Hne]; [exact H0|].
    apply (IH (lo + 1) H1). lia.
Qed.

(** ** Mixed comparisons *)

Lemma int_gt_float_mono (z z' : Z) (f : float) :
  z <= z' -> int_gt_float z f = true -> int_gt_float z' f = true.
Proof.
  unfold int_gt_float, compare_float_int, SF_compare_int. intro Hz.
  destruct (Prim2SF f) as [s|s| |s m e]; try (intro; assumption).
  - destruct (Z.compare_spec 0 z); try discriminate. intros _.
    now rewrite (proj2 (Z.compare_lt_iff 0 z')) by lia.
  - cbv zeta. pose proof (Z.pow_nonneg 2 (- e)).
    set (v := if s then Z.neg m else Z.pos m).
    destruct (0 <=? e).
    + destruct (Z.compare_spec (v * 2 ^ e) z); try discriminate. intros _.
      now rewrite (proj2 (Z.compare_lt_iff _ z')) by lia.
    + destruct (Z.compare_spec v (z * 2 ^ (- e))); try discriminate. intros _.
      now rewrite (proj2 (Z.compare_lt_iff v _)) by nia.
Qed.

Lemma compare_float_int_defined (f : float) (z z' : Z) (c : comparison) :
  compare_float_int f z = Some c -> exists c', compare_float_int f z' = Some c'.
Proof.
  unfold compare_float_int, SF_compare_int.
  destruct (Prim2SF f); try discriminate; eauto.
Qed.

Lemma float_lt_not_ge (f : float) (z : Z) :
  float_lt_int f z = true -> float_ge_int f z = false.
Proof.
  unfold float_lt_int, float_ge_int.
  destruct (compare_float_int f z) as [[| |]|]; try discriminate; reflexivity.
Qed.

Lemma float_ge_then_lt (f : float) (z z' : Z) :
  float_ge_int f z = true -> float_ge_int f z' = false -> float_lt_int f z' = true.
Proof.
  unfold float_lt_int, float_ge_int.
  destruct (compare_float_int f z) as [c|] eqn:E; [|discriminate]. intros _.
  destruct (compare_float_int_defined f z z' c E) as [c' ->].
  destruct c'; try discriminate; reflexivity.
Qed.

Lemma float_ge_int_anti (f : float) (z z' : Z) :
  z <= z' -> float_ge_int f z' = true -> float_ge_int f z = true.
Proof.
  unfold float_ge_int, compare_float_int, SF_compare_int. intro Hz.
  destruct (Prim2SF f) as [s|s| |s m e]; try (intro; assumption).
  - destruct (Z.compare_spec 0 z'); try discriminate; intros _;
      destruct (Z.compare_spec 0 z); try reflexivity; lia.
  - cbv zeta. pose proof (Z.pow_nonneg 2 (- e)).
    set (v := if s then Z.neg m else Z.pos m).
    destruct (0 <=? e).
    + destruct (Z.compare_spec (v * 2 ^ e) z'); try discriminate; intros _;
        destruct (Z.compare_spec (v * 2 ^ e) z); try reflexivity; lia.
    + destruct (Z.compare_spec v (z' * 2 ^ (- e))); try discriminate; intros _;
        destruct (Z.compare_spec v (z * 2 ^ (- e))); try reflexivity; nia.
Qed.

(** On the widget's range of balances the premium test is the exact one. *)
Lemma ratio_test_exact (b premium : Z) :
  0 <= b <= 100000 ->
  exists threshold,
    int_mul_float b 0.3%float = Ok threshold /\
    int_gt_float premium threshold = (3 * b <? 10 * premium).
Proof.
  intro Hb.
  pose proof (forall_from_spec _ _ _ ratio_test_exact_on_domain b) as H.
  unfold ratio_test_exact_at in H.
  destruct (int_mul_float b 0.3%float) as [t|]; [|discriminate H; lia].
  exists t. split; [reflexivity|].
  assert (Hc : int_gt_float (3 * b / 10 + 1) t
               && negb (int_gt_float (3 * b / 10) t) = true) by (apply H; lia).
  apply andb_true_iff in Hc. destruct Hc as [Hup Hdown].
  apply negb_true_iff in Hdown.
  pose proof (Z.div_mod (3 * b) 10 ltac:(lia)) as Hdm.
  pose proof (Z.mod_pos_bound (3 * b) 10 ltac:(lia)) as Hm.
  destruct (Z.ltb_spec (3 * b) (10 * premium)).
  - apply (int_gt_float_mono (3 * b / 10 + 1)); [lia | exact Hup].
  - destruct (int_gt_float premium t) eqn:E; [|reflexivity].
    rewrite (int_gt_float_mono premium (3 * b / 10) t) in Hdown;
      [discriminate | lia | exact E].
Qed.

Lemma score_total (p : BeneficiaryProfile) :
  0 <= avg_monthly_balance p <= 100000 -> exists r, score p = Ok r.
Proof.
  intro Hb. rewrite score_raw_score, raw_score_rules.
  destruct (ratio_test_exact (avg_monthly_balance p) (premium_amount p) Hb)
    as (t & -> & _).
  simpl. eauto.
Qed.

(** ** Two runs that differ in the months only *)

Lemma rule_months_pairs (m m' : Z) :
  m <= m' ->
  In (rule_months 0%float m, rule_months 0%float m') months_pairs.
Proof.
  intro Hle. unfold rule_months. rewrite !Z.geb_leb.
  destruct (Z.leb_spec 12 m); destruct (Z.leb_spec 12 m'); try lia;
    destruct (Z.leb_spec 6 m); destruct (Z.leb_spec 6 m'); try lia;
    destruct (Z.leb_spec 3 m); destruct (Z.leb_spec 3 m'); try lia;
    vm_compute; repeat (first [ left; reflexivity | right ]).
Qed.

Lemma raw_score_pair_reachable (p : BeneficiaryProfile) (m' : Z) (t : float) :
  months_since_claim p <= m' ->
  In (later_rules p t (rule_months 0%float (months_since_claim p)),
      later_rules p t (rule_months 0%float m'))
     all_raw_pairs.
Proof.
  intro Hle.
  destruct (later_rules_stages p t) as (fs & HF & E).
  rewrite !E, <- apply_all_both.
  unfold all_raw_pairs. apply reach_In.
  - now apply Forall2_both.
  - now apply rule_months_pairs.
Qed.

(** ** The explainer, rule by rule *)

Lemma risk_factors_segments (p : BeneficiaryProfile) :
  risk_factors p
  = (if months_since_claim p >=? 6
     then [MonthsWithoutClaims (months_since_claim p)] else [])
    ++ (if total_claims p =? 0 then [NoClaimsHistory]
        else if total_claims p >? 5
        then [HighClaimFrequency (total_claims p)] else [])
    ++ (if (age p <? 25) || (age p >? 55) then [AgeRiskFactor (age p)] else [])
    ++ (if existsb (String.eqb (region p)) [ "Lagos"; "Enugu"; "Kaduna" ]%string
        then [HighRiskRegion (region p)] else [])
    ++ (if claim_denial_rate p >? 15
        then [HighDenialRate (claim_denial_rate p)] else [])
    ++ (if avg_monthly_balance p <? 2000
        then [LowBalance (avg_monthly_balance p)] else []).
Proof.
  unfold risk_factors.
  destruct (months_since_claim p >=? 6), (total_claims p =? 0),
    (total_claims p >? 5), ((age p <? 25) || (age p >? 55)),
    (existsb (String.eqb (region p)) [ "Lagos"; "Enugu"; "Kaduna" ]%string),
    (claim_denial_rate p >? 15), (avg_monthly_balance p <? 2000);
    reflexivity.
Qed.

Lemma In_if_singleton {A : Type} (b : bool) (x y : A) :
  In y (if b then [x] else []) <-> b = true /\ x = y.
Proof. destruct b; simpl; intuition discriminate. Qed.

Lemma In_if_singleton2 {A : Type} (a b : bool) (x x' y : A) :
  In y (if a then [x] else if b then [x'] else [])
  <-> (a = true /\ x = y) \/ (a = false /\ b = true /\ x' = y).
Proof. destruct a, b; simpl; intuition discriminate. Qed.

Lemma high_risk_region_test (r : string) :
  existsb (String.eqb r) [ "Lagos"; "Enugu"; "Kaduna" ]%string = true
  <-> (r = "Lagos" \/ r = "Enugu" \/ r = "Kaduna")%string.
Proof.
  simpl. rewrite !orb_true_iff, !String.eqb_eq. intuition discriminate.
Qed.

Lemma age_test (a : Z) :
  (a <? 25) || (a >? 55) = true <-> a < 25 \/ a > 55.
Proof. rewrite orb_true_iff, Z.ltb_lt, Z.gtb_lt. lia. Qed.

Lemma risk_factors_triggered (p : BeneficiaryProfile) (f : risk_factor) :
  In f (risk_factors p) <-> spec_triggers p f.
Proof.
  rewrite risk_factors_segments, !in_app_iff, In_if_singleton2, !In_if_singleton.
  rewrite high_risk_region_test, age_test, Z.geb_le, Z.eqb_eq, Z.eqb_neq,
    !Z.gtb_lt, Z.ltb_lt.
  destruct f; simpl; split; intro H.
  all: decompose [and or] H; try discriminate;
    repeat match goal with
           | E : ?c _ = ?c _ |- _ => injection E as E
           end;
    subst.
  all: first [ solve [repeat split; (reflexivity || assumption || lia || tauto)]
             | choose_disjunct ].
Qed.

Lemma risk_factors_in_evaluation_order (p : BeneficiaryProfile) :
  StronglySorted (fun a b => (rank a < rank b)%nat) (risk_factors p).
Proof.
  rewrite risk_factors_segments.
  destruct (months_since_claim p >=? 6), (total_claims p =? 0),
    (total_claims p >? 5), ((age p <? 25) || (age p >? 55)),
    (existsb (String.eqb (region p)) [ "Lagos"; "Enugu"; "Kaduna" ]%string),
    (claim_denial_rate p >? 15), (avg_monthly_balance p <? 2000);
    cbn [app];
    repeat first [ apply SSorted_nil | apply SSorted_cons
                 | apply Forall_nil | apply Forall_cons ];
    simpl; lia.
Qed.

(** ** What a run of the handler logs *)

Lemma count_app (which : event -> bool) (l1 l2 : list event) :
  count which (l1 ++ l2) = (count which l1 + count which l2)%nat.
Proof. unfold count. now rewrite filter_app, length_app. Qed.

Lemma for_each_factor_lines (l : list risk_factor) :
  forall log,
    for_each l (fun factor => emit (FactorLine factor)) log
    = (log ++ map FactorLine l, Ok tt).
Proof.
  induction l as [|x l IH]; intro log; simpl.
  - now rewrite app_nil_r.
  - unfold emit at 1. rewrite IH, <- app_assoc. reflexivity.
Qed.

Lemma factor_lines_count (which : event -> bool) (l : list risk_factor) :
  (forall f, which (FactorLine f) = false) ->
  count which (map FactorLine l) = 0%nat.
Proof.
  intro Hw. unfold count. induction l as [|x l IH]; simpl; [reflexivity|].
  now rewrite Hw.
Qed.

Lemma show_risk_factors_log (l : list risk_factor) (log : list event) :
  show_risk_factors l log
  = (log ++ match l with
            | [] => [StSuccess NoMajorRiskFactorsIdentified]
            | _ :: _ => map FactorLine l
            end, Ok tt).
Proof.
  destruct l as [|x l]; [reflexivity|].
  unfold show_risk_factors. apply for_each_factor_lines.
Qed.

Lemma shown_factors_count (which : event -> bool) (l : list risk_factor) :
  (forall f, which (FactorLine f) = false) ->
  which (StSuccess NoMajorRiskFactorsIdentified) = false ->
  count which match l with
              | [] => [StSuccess NoMajorRiskFactorsIdentified]
              | _ :: _ => map FactorLine l
              end = 0%nat.
Proof.
  intros Hf Hs. destruct l; [unfold count; simpl; now rewrite Hs|].
  now apply factor_lines_count.
Qed.

Lemma no_click_no_output (f : Form) :
  run (result_column false f) = ([], Ok tt).
Proof. reflexivity. Qed.

Lemma button_handler_guarded (f : Form) :
  beneficiary_id f = EmptyString ->
  run (button_handler f)
  = ([StWarning PleaseEnterBeneficiaryId; StInfo ExampleIds], Ok tt).
Proof. unfold button_handler. intros ->. reflexivity. Qed.

(** Everything [show_results] renders, element by element. *)
Lemma show_results_rendered (f : Form) (dropout_prob : float) (log : list event) :
  let dropout_percentage := (dropout_prob * 100)%float in
  let c := classify dropout_percentage in
  show_results f dropout_prob log
  = (log
     ++ [ PredictionBox (risk_class c) (outcome c) (risk_level c)
            dropout_percentage (beneficiary_id f);
          GaugeChart dropout_percentage (color c);
          StMarkdown KeyRiskFactors ]
     ++ match risk_factors (profile f) with
        | [] => [StSuccess NoMajorRiskFactorsIdentified]
        | _ :: _ => map FactorLine (risk_factors (profile f))
        end
     ++ [ StMarkdown Recommendations;
          if float_ge_int dropout_percentage 70
          then StError UrgentActionRequired
          else if float_ge_int dropout_percentage 50
               then StWarning ProactiveIntervention
               else StSuccess StandardMonitoring ],
     Ok tt).
Proof.
  cbv zeta. unfold show_results, show_recommendation. cbv zeta.
  cbn [bind ui_monad]. unfold emit at 1 2 3.
  rewrite show_risk_factors_log. unfold emit at 1.
  destruct (float_ge_int (dropout_prob * 100) 70);
    [|destruct (float_ge_int (dropout_prob * 100) 50)];
    unfold emit; rewrite <- !app_assoc; reflexivity.
Qed.

Lemma button_handler_renders (f : Form) (dropout_prob : float) :
  beneficiary_id f <> EmptyString ->
  score (profile f) = Ok dropout_prob ->
  run (button_handler f)
  = show_results f dropout_prob [Call_calculate_dropout_risk (profile f)].
Proof.
  intros Hid Hr. unfold run, button_handler.
  destruct (beneficiary_id f) eqn:E; [congruence|]. cbn [truthy].
  cbn [bind ui_monad]. unfold emit at 1, lift. rewrite Hr. reflexivity.
Qed.

(** ** The claims *)

(** C1 (balance rule, as the code evaluates it).  Whatever [risk_score] is
    when line 126 is reached, a balance of 500 adds 0.10 to it and not 0.15,
    a balance of 1500 adds 0.10 and a balance of 3000 adds nothing; no
    balance at all takes the 0.15 branch.  On [low_balance_profile] (balance
    500, region Port Harcourt, every other rule missing) the function
    returns 0.04 + 0.10 = 0.14, where the tighter-bound reading of the rule
    would give 0.04 + 0.15 = 0.19. *)
Theorem balance_rule_first_match :
  (forall s, rule_balance s 500 = (s + 0.10)%float) /\
  (forall s, rule_balance s 1500 = (s + 0.10)%float) /\
  (forall s, rule_balance s 3000 = s) /\
  (forall s b, rule_balance s b = (s + 0.10)%float \/ rule_balance s b = s) /\
  score low_balance_profile = Ok 0.14%float /\
  (0.04 + 0.10 = 0.14)%float /\
  (0.04 + 0.15 = 0.19)%float /\
  (0.14 <? 0.19)%float = true.
Proof.
  repeat split; try reflexivity.
  intros s b. rewrite rule_balance_cases.
  destruct (b <? 2000); [now left | now right].
Qed.

(** C2.  For every profile whose eight numeric fields lie in the declared
    domains (the region is arbitrary), [calculate_dropout_risk] returns a
    value, and that value lies between 0 and 0.95. *)
Theorem score_within_bounds (p : BeneficiaryProfile) :
  in_domain p ->
  exists r, score p = Ok r /\ (0 <=? r)%float = true /\ (r <=? 0.95)%float = true.
Proof.
  intro Hd.
  destruct (score_total p) as [r Hr]; [unfold in_domain in Hd; tauto|].
  exists r. split; [exact Hr|].
  pose proof (proj1 (forallb_forall _ _) all_scores_in_bounds r
                (score_reachable p r Hr)) as Hb.
  unfold score_in_bounds in Hb.
  apply andb_true_iff in Hb. destruct Hb as [Hb Hhi].
  apply andb_true_iff in Hb. destruct Hb as [Hlo _].
  now split.
Qed.

Lemma score_within_bounds_witness :
  in_domain example1 /\
  exists r, score example1 = Ok r /\
            (0 <=? r)%float = true /\ (r <=? 0.95)%float = true.
Proof.
  assert (Hd : in_domain example1) by (unfold in_domain; simpl; lia).
  split; [exact Hd | exact (score_within_bounds example1 Hd)].
Defined.

(** C3.  For every probability [r] the scorer returns, with
    [dropout_percentage = r * 100]: the outcome is WILL DROPOUT exactly when
    the percentage is at least 50 and WILL NOT DROPOUT otherwise; the tier is
    HIGH RISK exactly when the percentage is at least 70, MEDIUM RISK exactly
    when it is at least 50 and below 70, LOW RISK exactly when it is below
    50. *)
Theorem classifier_thresholds (p : BeneficiaryProfile) (r : float) :
  score p = Ok r ->
  let dropout_percentage := (r * 100)%float in
  let c := classify dropout_percentage in
  (outcome c = "WILL DROPOUT"%string
   <-> float_ge_int dropout_percentage 50 = true) /\
  (outcome c = "WILL NOT DROPOUT"%string
   <-> float_ge_int dropout_percentage 50 = false) /\
  (risk_level c = "HIGH RISK"%string
   <-> float_ge_int dropout_percentage 70 = true) /\
  (risk_level c = "MEDIUM RISK"%string
   <-> float_ge_int dropout_percentage 50 = true /\
       float_lt_int dropout_percentage 70 = true) /\
  (risk_level c = "LOW RISK"%string
   <-> float_lt_int dropout_percentage 50 = true).
Proof.
  intros Hr pct c.
  pose proof (proj1 (forallb_forall _ _) all_scores_ordered r
                (score_reachable p r Hr)) as Hord.
  unfold percentage_is_ordered in Hord. fold pct in Hord.
  unfold c, classify.
  destruct (float_ge_int pct 50) eqn:E50.
  - assert (L50 : float_lt_int pct 50 = false).
    { destruct (float_lt_int pct 50) eqn:L; [|reflexivity].
      apply float_lt_not_ge in L. congruence. }
    destruct (float_ge_int pct 70) eqn:E70; cbn [outcome risk_level].
    + assert (L70 : float_lt_int pct 70 = false).
      { destruct (float_lt_int pct 70) eqn:L; [|reflexivity].
        apply float_lt_not_ge in L. congruence. }
      rewrite L50, L70.
      repeat split; intros; try discriminate; try reflexivity;
        try (destruct H; discriminate).
    + rewrite (float_ge_then_lt pct 50 70 E50 E70), L50.
      repeat split; intros; try discriminate; try reflexivity.
  - assert (E70 : float_ge_int pct 70 = false).
    { destruct (float_ge_int pct 70) eqn:E; [|reflexivity].
      apply (float_ge_int_anti pct 50 70) in E; [congruence | lia]. }
    simpl in Hord. rewrite Hord, E70. cbn [outcome risk_level].
    repeat split; intros; try discriminate; try reflexivity;
      try (destruct H; discriminate).
Qed.

Lemma classifier_thresholds_witness :
  score example1 = Ok 0.78%float /\
  let dropout_percentage := (0.78 * 100)%float in
  let c := classify dropout_percentage in
  (outcome c = "WILL DROPOUT"%string
   <-> float_ge_int dropout_percentage 50 = true) /\
  (outcome c = "WILL NOT DROPOUT"%string
   <-> float_ge_int dropout_percentage 50 = false) /\
  (risk_level c = "HIGH RISK"%string
   <-> float_ge_int dropout_percentage 70 = true) /\
  (risk_level c = "MEDIUM RISK"%string
   <-> float_ge_int dropout_percentage 50 = true /\
       float_lt_int dropout_percentage 70 = true) /\
  (risk_level c = "LOW RISK"%string
   <-> float_lt_int dropout_percentage 50 = true).
Proof.
  split; [reflexivity|].
  exact (classifier_thresholds example1 0.78%float eq_refl).
Defined.

(** C4.  For every profile that takes the largest branch of every rule
    (months at least 12, more than 10 claims, age above 65, region Lagos,
    denial rate above 25, fewer than 2 visits, distance above 50, balance
    below 1000 and, as the widget guarantees, not negative, premium above 0.3
    times the balance), the sum of the contributions is
    1.4600000000000004, which exceeds 0.95, and [calculate_dropout_risk]
    returns exactly 0.95. *)
Theorem cap_is_reached (p : BeneficiaryProfile) :
  months_since_claim p >= 12 ->
  total_claims p > 10 ->
  age p > 65 ->
  region p = "Lagos"%string ->
  claim_denial_rate p > 25 ->
  clinic_visits p < 2 ->
  distance_to_clinic p > 50 ->
  0 <= avg_monthly_balance p < 1000 ->
  10 * premium_amount p > 3 * avg_monthly_balance p ->
  raw_score p = Ok 1.4600000000000004%float /\
  (0.95 <? 1.4600000000000004)%float = true /\
  score p = Ok 0.95%float.
Proof.
  intros Hm Hc Ha Hr Hd Hv Hdist Hb Hprem.
  assert (Hraw : raw_score p = Ok 1.4600000000000004%float).
  { rewrite raw_score_rules.
    destruct (ratio_test_exact (avg_monthly_balance p) (premium_amount p))
      as (t & -> & Hgt); [lia|].
    cbn [bind result_monad].
    unfold later_rules, rule_ratio, rule_balance, rule_distance, rule_visits,
      rule_denial, rule_region, rule_age, rule_claims, rule_months.
    rewrite Hgt, Hr.
    rewrite (proj2 (Z.ltb_lt _ _)) by lia.
    rewrite (proj2 (Z.geb_le _ _)) by lia.
    rewrite (proj2 (Z.eqb_neq (total_claims p) 0)) by lia.
    rewrite (proj2 (Z.gtb_lt (total_claims p) 10)) by lia.
    rewrite (proj2 (Z.ltb_ge (age p) 25)) by lia.
    rewrite (proj2 (Z.gtb_lt (age p) 65)) by lia.
    rewrite (proj2 (Z.gtb_lt (claim_denial_rate p) 25)) by lia.
    rewrite (proj2 (Z.ltb_lt (clinic_visits p) 2)) by lia.
    rewrite (proj2 (Z.gtb_lt (distance_to_clinic p) 50)) by lia.
    rewrite (proj2 (Z.ltb_lt (avg_monthly_balance p) 2000)) by lia.
    reflexivity. }
  split; [exact Hraw|]. split; [reflexivity|].
  rewrite score_raw_score, Hraw. reflexivity.
Qed.

Lemma cap_is_reached_witness :
  raw_score worst_profile = Ok 1.4600000000000004%float /\
  (0.95 <? 1.4600000000000004)%float = true /\
  score worst_profile = Ok 0.95%float.
Proof.
  apply (cap_is_reached worst_profile); simpl; (reflexivity || lia).
Defined.

(** C5, as stated, fails: no profile within the declared domains scores
    exactly 0, because the regional weight is added on every path. *)
Lemma no_profile_scores_zero :
  ~ exists p, in_domain p /\ score p = Ok 0%float.
Proof.
  intros (p & _ & Hr).
  pose proof (proj1 (forallb_forall _ _) all_scores_in_bounds _
                (score_reachable p _ Hr)) as Hb.
  vm_compute in Hb. discriminate Hb.
Qed.

(** C5, amended.  The score has a floor of 0.04, the smallest regional
    weight: every profile within the declared domains scores at least 0.04,
    and [example2] (region Port Harcourt, every other rule missing) lies in
    the domains and scores exactly 0.04. *)
Theorem score_floor_is_regional_minimum :
  (forall p, in_domain p ->
     exists r, score p = Ok r /\ (0.04 <=? r)%float = true) /\
  (in_domain example2 /\ score example2 = Ok 0.04%float).
Proof.
  split.
  - intros p Hd.
    destruct (score_total p) as [r Hr]; [unfold in_domain in Hd; tauto|].
    exists r. split; [exact Hr|].
    pose proof (proj1 (forallb_forall _ _) all_scores_in_bounds r
                  (score_reachable p r Hr)) as Hb.
    unfold score_in_bounds in Hb.
    apply andb_true_iff in Hb. destruct Hb as [Hb _].
    apply andb_true_iff in Hb. tauto.
  - split; [unfold in_domain; simpl; lia | reflexivity].
Qed.

Lemma score_floor_is_regional_minimum_witness :
  in_domain low_balance_profile /\
  exists r, score low_balance_profile = Ok r /\ (0.04 <=? r)%float = true.
Proof.
  assert (Hd : in_domain low_balance_profile) by (unfold in_domain; simpl; lia).
  split; [exact Hd|].
  exact (proj1 score_floor_is_regional_minimum low_balance_profile Hd).
Defined.

(** C6.  Holding every other field fixed (the balance within the widget's
    range, so that the call returns), a larger [months_since_claim] never
    gives a smaller score; in particular across the tier boundaries
    2, 3, 6, 12. *)
Theorem months_monotone (p : BeneficiaryProfile) (m' : Z) :
  months_since_claim p <= m' ->
  0 <= avg_monthly_balance p <= 100000 ->
  exists r r',
    score p = Ok r /\
    score (with_months m' p) = Ok r' /\
    (r <=? r')%float = true.
Proof.
  intros Hle Hb.
  rewrite !score_raw_score, !raw_score_rules.
  change (avg_monthly_balance (with_months m' p)) with (avg_monthly_balance p).
  destruct (ratio_test_exact (avg_monthly_balance p) (premium_amount p) Hb)
    as (t & -> & _).
  cbn [bind result_monad].
  change (later_rules (with_months m' p) t
            (rule_months 0%float (months_since_claim (with_months m' p))))
    with (later_rules p t (rule_months 0%float m')).
  eexists. eexists. split; [reflexivity|]. split; [reflexivity|].
  exact (proj1 (forallb_forall _ _) all_raw_pairs_in_order _
           (raw_score_pair_reachable p m' t Hle)).
Qed.

Lemma months_monotone_witness :
  exists r2 r3 r6 r12,
    score (with_months 2 example2) = Ok r2 /\
    score (with_months 3 example2) = Ok r3 /\
    score (with_months 6 example2) = Ok r6 /\
    score (with_months 12 example2) = Ok r12 /\
    (r2 <=? r3)%float = true /\
    (r3 <=? r6)%float = true /\
    (r6 <=? r12)%float = true.
Proof.
  destruct (months_monotone (with_months 2 example2) 3)
    as (r2 & r3 & H2 & H3 & L23); [simpl; lia | simpl; lia |].
  destruct (months_monotone (with_months 3 example2) 6)
    as (r3' & r6 & H3' & H6 & L36); [simpl; lia | simpl; lia |].
  destruct (months_monotone (with_months 6 example2) 12)
    as (r6' & r12 & H6' & H12 & L612); [simpl; lia | simpl; lia |].
  exists r2, r3, r6, r12.
  change (with_months 3 (with_months 2 example2))
    with (with_months 3 example2) in H3.
  change (with_months 6 (with_months 3 example2))
    with (with_months 6 example2) in H6.
  change (with_months 12 (with_months 6 example2))
    with (with_months 12 example2) in H12.
  assert (r3' = r3) by congruence. assert (r6' = r6) by congruence. subst.
  repeat split; assumption.
Defined.

(** C7.  End-to-end example 1: months 12, no claims, age 35, Lagos, denial
    10, 3 visits, 15 km, balance 5000, premium 1500.  The months rule adds
    0.45, the claims rule 0.15, the region 0.18 and every other rule
    nothing (the premium 1500 is not above 5000 * 0.3 = 1500.0), so the sum
    is 0.78; the percentage is 78.0, the outcome WILL DROPOUT, the tier HIGH
    RISK, and the factor list is the months line, the no-claims-history line
    and the high-risk-region line. *)
Theorem example1_end_to_end :
  (forall s, rule_months s 12 = (s + 0.45)%float) /\
  (forall s, rule_claims s 0 = (s + 0.15)%float) /\
  (forall s, rule_age s 35 = s) /\
  (forall s, rule_region s "Lagos" = (s + 0.18)%float) /\
  (forall s, rule_denial s 10 = s) /\
  (forall s, rule_visits s 3 = s) /\
  (forall s, rule_distance s 15 = s) /\
  (forall s, rule_balance s 5000 = s) /\
  int_mul_float 5000 0.3%float = Ok 1500%float /\
  (forall s, rule_ratio s 1500 1500%float = s) /\
  raw_score example1 = Ok (0 + 0.45 + 0.15 + 0.18)%float /\
  (0 + 0.45 + 0.15 + 0.18 = 0.78)%float /\
  score example1 = Ok 0.78%float /\
  (0.78 * 100 = 78)%float /\
  outcome (classify 78%float) = "WILL DROPOUT"%string /\
  risk_level (classify 78%float) = "HIGH RISK"%string /\
  risk_factors example1
  = [MonthsWithoutClaims 12; NoClaimsHistory; HighRiskRegion "Lagos"] /\
  run (result_column true example_form)
  = ([Call_calculate_dropout_risk example1;
      PredictionBox "high-risk" "WILL DROPOUT" "HIGH RISK" 78%float "BEN001234";
      GaugeChart 78%float "#f44336";
      StMarkdown KeyRiskFactors;
      FactorLine (MonthsWithoutClaims 12);
      FactorLine NoClaimsHistory;
      FactorLine (HighRiskRegion "Lagos");
      StMarkdown Recommendations;
      StError UrgentActionRequired], Ok tt).
Proof. repeat split; reflexivity. Qed.

(** C8.  The explainer lists exactly the factors whose thresholds trigger
    (months at least 6; no claims, else more than 5 claims; age below 25 or
    above 55; region Lagos, Enugu or Kaduna; denial rate above 15; balance
    below 2000), each once and in evaluation order; when none triggers it
    shows the single no-major-risk-factors box, and otherwise one line per
    listed factor. *)
Theorem explainer_thresholds (p : BeneficiaryProfile) :
  (forall f, In f (risk_factors p) <-> spec_triggers p f) /\
  StronglySorted (fun a b => (rank a < rank b)%nat) (risk_factors p) /\
  ((forall f, ~ spec_triggers p f) ->
   run (show_risk_factors (risk_factors p))
   = ([StSuccess NoMajorRiskFactorsIdentified], Ok tt)) /\
  ((exists f, spec_triggers p f) ->
   run (show_risk_factors (risk_factors p))
   = (map FactorLine (risk_factors p), Ok tt)).
Proof.
  split; [intro f; apply risk_factors_triggered|].
  split; [apply risk_factors_in_evaluation_order|].
  unfold run. rewrite show_risk_factors_log.
  split.
  - intro Hnone. destruct (risk_factors p) as [|x l] eqn:E; [reflexivity|].
    exfalso. apply (Hnone x). apply risk_factors_triggered. rewrite E. now left.
  - intros [f Hf]. apply risk_factors_triggered in Hf.
    destruct (risk_factors p); [destruct Hf | reflexivity].
Qed.

(** C9.  On a click of the button, with the widgets in their ranges.  An
    empty beneficiary id gives the two prompts and nothing else: no call of
    [calculate_dropout_risk], no prediction box.  A non-empty id gives one
    complete evaluation: [calculate_dropout_risk] is called once, on the
    profile of the form, and returns a probability; the run then renders, in
    this order and with nothing else, the prediction box with the outcome,
    tier and percentage of that probability and the id, the gauge on that
    percentage, the factor heading with the lines of the explainer (or its
    single no-major-risk-factors box), and the recommendation heading with
    the box chosen at 70 and 50; it ends without an exception. *)
Theorem guard_condition (f : Form) :
  in_widget_ranges f ->
  (beneficiary_id f = EmptyString ->
   let log := [StWarning PleaseEnterBeneficiaryId; StInfo ExampleIds] in
   run (result_column true f) = (log, Ok tt) /\
   count is_call log = 0%nat /\
   count is_prediction log = 0%nat) /\
  (beneficiary_id f <> EmptyString ->
   exists dropout_prob,
     score (profile f) = Ok dropout_prob /\
     let dropout_percentage := (dropout_prob * 100)%float in
     let c := classify dropout_percentage in
     let log :=
       [ Call_calculate_dropout_risk (profile f);
         PredictionBox (risk_class c) (outcome c) (risk_level c)
           dropout_percentage (beneficiary_id f);
         GaugeChart dropout_percentage (color c);
         StMarkdown KeyRiskFactors ]
       ++ match risk_factors (profile f) with
          | [] => [StSuccess NoMajorRiskFactorsIdentified]
          | _ :: _ => map FactorLine (risk_factors (profile f))
          end
       ++ [ StMarkdown Recommendations;
            if float_ge_int dropout_percentage 70
            then StError UrgentActionRequired
            else if float_ge_int dropout_percentage 50
                 then StWarning ProactiveIntervention
                 else StSuccess StandardMonitoring ] in
     run (result_column true f) = (log, Ok tt) /\
     count is_call log = 1%nat /\
     count is_prediction log = 1%nat).
Proof.
  intros (Hd & _ & _). split.
  - intro Hid. cbv zeta. split; [|split; reflexivity].
    now apply button_handler_guarded.
  - intro Hid.
    destruct (score_total (profile f)) as [r Hr];
      [unfold in_domain in Hd; tauto|].
    exists r. split; [exact Hr|]. cbv zeta. split.
    + change (run (result_column true f)) with (run (button_handler f)).
      rewrite (button_handler_renders f r Hid Hr).
      pose proof (show_results_rendered f r
                    [Call_calculate_dropout_risk (profile f)]) as H.
      cbv zeta in H. exact H.
    + rewrite !count_app, !shown_factors_count by reflexivity.
      destruct (float_ge_int (r * 100) 70);
        [|destruct (float_ge_int (r * 100) 50)]; split; reflexivity.
Qed.

Lemma guard_condition_witness :
  in_widget_ranges example_form /\
  beneficiary_id example_form <> EmptyString /\
  score (profile example_form) = Ok 0.78%float /\
  run (result_column true example_form)
  = ([ Call_calculate_dropout_risk example1;
       PredictionBox "high-risk" "WILL DROPOUT" "HIGH RISK" 78%float "BEN001234";
       GaugeChart 78%float "#f44336";
       StMarkdown KeyRiskFactors;
       FactorLine (MonthsWithoutClaims 12);
       FactorLine NoClaimsHistory;
       FactorLine (HighRiskRegion "Lagos");
       StMarkdown Recommendations;
       StError UrgentActionRequired ], Ok tt) /\
  run (result_column true
         {| beneficiary_id := ""; gender := "Female"; profile := example1 |})
  = ([StWarning PleaseEnterBeneficiaryId; StInfo ExampleIds], Ok tt).
Proof.
  assert (Hw : in_widget_ranges example_form).
  { unfold in_widget_ranges, in_domain. simpl. repeat split; try lia; auto. }
  assert (Hid : beneficiary_id example_form <> EmptyString) by discriminate.
  split; [exact Hw|]. split; [exact Hid|]. split; [reflexivity|].
  split.
  - destruct (proj2 (guard_condition example_form Hw) Hid)
      as (r & Hr & Hrun & _).
    assert (Er : r = 0.78%float)
      by (change (score (profile example_form)) with (Ok 0.78%float) in Hr;
          congruence).
    subst r. exact Hrun.
  - assert (Hw' : in_widget_ranges
                    {| beneficiary_id := ""; gender := "Female";
                       profile := example1 |}).
    { unfold in_widget_ranges, in_domain. simpl. repeat split; try lia; auto. }
    exact (proj1 (proj1 (guard_condition _ Hw') eq_refl)).
Defined.

(** C10.  Two runs whose forms differ only in the gender log the same
    events, the call of [calculate_dropout_risk] with its arguments
    included, and end in the same result. *)
Theorem gender_noninterference
    (id g1 g2 : string) (p : BeneficiaryProfile) (clicked : bool) :
  run (result_column clicked
         {| beneficiary_id := id; gender := g1; profile := p |})
  = run (result_column clicked
           {| beneficiary_id := id; gender := g2; profile := p |}).
Proof. reflexivity. Qed.

(** * Further properties of the code *)

(** ** Runs on two profiles, one at least as risky as the other *)

Lemma all_ordered_runs_in_order : forallb capped_in_order all_ordered_runs = true.
Proof. vm_compute. reflexivity. Qed.

Lemma rule_months_ordered (m m' : Z) :
  m <= m' ->
  exists F, In F (upper_pairs months_stage) /\
            forall st, (rule_months (fst st) m, rule_months (snd st) m') = F st.
Proof.
  intro Hle. unfold rule_months. rewrite !Z.geb_leb.
  destruct (Z.leb_spec 12 m); destruct (Z.leb_spec 12 m'); try lia;
    [pick_pair (add 0.45%float) (add 0.45%float)| |].
  - destruct (Z.leb_spec 6 m); [|destruct (Z.leb_spec 3 m)].
    + pick_pair (add 0.30%float) (add 0.45%float).
    + pick_pair (add 0.15%float) (add 0.45%float).
    + pick_pair keep (add 0.45%float).
  - destruct (Z.leb_spec 6 m); destruct (Z.leb_spec 6 m'); try lia;
      [pick_pair (add 0.30%float) (add 0.30%float)| |].
    + destruct (Z.leb_spec 3 m).
      * pick_pair (add 0.15%float) (add 0.30%float).
      * pick_pair keep (add 0.30%float).
    + destruct (Z.leb_spec 3 m); destruct (Z.leb_spec 3 m'); try lia.
      * pick_pair (add 0.15%float) (add 0.15%float).
      * pick_pair keep (add 0.15%float).
      * pick_pair keep keep.
Qed.

Lemma rule_denial_ordered (d d' : Z) :
  d <= d' ->
  exists F, In F (upper_pairs denial_ascending) /\
            forall st, (rule_denial (fst st) d, rule_denial (snd st) d') = F st.
Proof.
  intro Hle. unfold rule_denial. rewrite !Z.gtb_ltb.
  destruct (Z.ltb_spec 25 d); destruct (Z.ltb_spec 25 d'); try lia;
    [pick_pair (add 0.12%float) (add 0.12%float)| |].
  - destruct (Z.ltb_spec 15 d).
    + pick_pair (add 0.08%float) (add 0.12%float).
    + pick_pair keep (add 0.12%float).
  - destruct (Z.ltb_spec 15 d); destruct (Z.ltb_spec 15 d'); try lia.
    + pick_pair (add 0.08%float) (add 0.08%float).
    + pick_pair keep (add 0.08%float).
    + pick_pair keep keep.
Qed.

Lemma rule_distance_ordered (d d' : Z) :
  d <= d' ->
  exists F, In F (upper_pairs distance_stage) /\
            forall st, (rule_distance (fst st) d, rule_distance (snd st) d') = F st.
Proof.
  intro Hle. unfold rule_distance. rewrite !Z.gtb_ltb.
  destruct (Z.ltb_spec 50 d); destruct (Z.ltb_spec 50 d'); try lia.
  - pick_pair (add 0.08%float) (add 0.08%float).
  - pick_pair keep (add 0.08%float).
  - pick_pair keep keep.
Qed.

(** A larger balance is the less risky one. *)
Lemma rule_balance_ordered (b b' : Z) :
  b' <= b ->
  exists F, In F (upper_pairs balance_stage) /\
            forall st, (rule_balance (fst st) b, rule_balance (snd st) b') = F st.
Proof.
  intro Hle.
  destruct (Z.ltb_spec b 2000) as [H|H]; destruct (Z.ltb_spec b' 2000) as [H'|H'];
    try lia.
  - exists (fun st => (add 0.10%float (fst st), add 0.10%float (snd st))).
    split; [in_list|]. intro st. rewrite !rule_balance_cases.
    rewrite (proj2 (Z.ltb_lt b 2000) H), (proj2 (Z.ltb_lt b' 2000) H').
    reflexivity.
  - exists (fun st => (keep (fst st), add 0.10%float (snd st))).
    split; [in_list|]. intro st. rewrite !rule_balance_cases.
    rewrite (proj2 (Z.ltb_ge b 2000) H), (proj2 (Z.ltb_lt b' 2000) H').
    reflexivity.
  - exists (fun st => (keep (fst st), keep (snd st))).
    split; [in_list|]. intro st. rewrite !rule_balance_cases.
    rewrite (proj2 (Z.ltb_ge b 2000) H), (proj2 (Z.ltb_ge b' 2000) H').
    reflexivity.
Qed.

Lemma rule_ratio_ordered (b b' premium premium' : Z) (t t' : float) :
  b' <= b -> premium <= premium' ->
  int_gt_float premium t = (3 * b <? 10 * premium) ->
  int_gt_float premium' t' = (3 * b' <? 10 * premium') ->
  exists F, In F (upper_pairs ratio_stage) /\
            forall st, (rule_ratio (fst st) premium t,
                        rule_ratio (snd st) premium' t') = F st.
Proof.
  intros Hb Hp E E'. unfold rule_ratio. rewrite E, E'.
  destruct (Z.ltb_spec (3 * b) (10 * premium));
    destruct (Z.ltb_spec (3 * b') (10 * premium')); try lia.
  - pick_pair (add 0.08%float) (add 0.08%float).
  - pick_pair keep (add 0.08%float).
  - pick_pair keep keep.
Qed.

Lemma shared_rule_both (stage : list (float -> float))
    (rule : float -> float) :
  (exists f, In f stage /\ forall s, rule s = f s) ->
  exists F, In F (map both stage) /\
            forall st, (rule (fst st), rule (snd st)) = F st.
Proof.
  intros (f & Hin & E). exists (both f). split; [now apply in_map|].
  intro st. unfold both. now rewrite !E.
Qed.

Lemma riskier_runs_reachable (p p' : BeneficiaryProfile) (t t' : float) :
  months_since_claim p <= months_since_claim p' ->
  total_claims p = total_claims p' ->
  age p = age p' ->
  region p = region p' ->
  claim_denial_rate p <= claim_denial_rate p' ->
  clinic_visits p = clinic_visits p' ->
  distance_to_clinic p <= distance_to_clinic p' ->
  avg_monthly_balance p' <= avg_monthly_balance p ->
  premium_amount p <= premium_amount p' ->
  int_gt_float (premium_amount p) t
  = (3 * avg_monthly_balance p <? 10 * premium_amount p) ->
  int_gt_float (premium_amount p') t'
  = (3 * avg_monthly_balance p' <? 10 * premium_amount p') ->
  In (later_rules p t (rule_months 0%float (months_since_claim p)),
      later_rules p' t' (rule_months 0%float (months_since_claim p')))
     all_ordered_runs.
Proof.
  intros Hm Hc Ha Hr Hd Hv Hdist Hb Hp Et Et'.
  destruct (rule_months_ordered _ _ Hm) as (F1 & I1 & E1).
  destruct (shared_rule_both claims_stage (fun s => rule_claims s (total_claims p))
              (rule_claims_stage _)) as (F2 & I2 & E2).
  destruct (shared_rule_both age_stage (fun s => rule_age s (age p))
              (rule_age_stage _)) as (F3 & I3 & E3).
  destruct (shared_rule_both region_stage (fun s => rule_region s (region p))
              (rule_region_stage _)) as (F4 & I4 & E4).
  destruct (rule_denial_ordered _ _ Hd) as (F5 & I5 & E5).
  destruct (shared_rule_both visits_stage (fun s => rule_visits s (clinic_visits p))
              (rule_visits_stage _)) as (F6 & I6 & E6).
  destruct (rule_distance_ordered _ _ Hdist) as (F7 & I7 & E7).
  destruct (rule_balance_ordered _ _ Hb) as (F8 & I8 & E8).
  destruct (rule_ratio_ordered _ _ _ _ t t' Hb Hp Et Et') as (F9 & I9 & E9).
  unfold later_rules. rewrite <- Hc, <- Ha, <- Hr, <- Hv.
  pose proof (E1 (0%float, 0%float)) as H1. cbn [fst snd] in H1.
  chain E2 H1 H2. chain E3 H2 H3. chain E4 H3 H4. chain E5 H4 H5.
  chain E6 H5 H6. chain E7 H6 H7. chain E8 H7 H8. chain E9 H8 H9.
  rewrite H9.
  change (F9 (F8 (F7 (F6 (F5 (F4 (F3 (F2 (F1 (0%float, 0%float))))))))))
    with (apply_all [F1; F2; F3; F4; F5; F6; F7; F8; F9] (0%float, 0%float)).
  unfold all_ordered_runs, ordered_stages. apply reach_In.
  - repeat (apply Forall2_cons; [assumption|]). apply Forall2_nil.
  - now left.
Qed.

(** X1.  Of two profiles with the same claims, age, region and visits, the
    one with at least as many months since the last claim, at least the
    denial rate, distance and premium, and at most the balance of the other
    never scores lower (balances within the widget's range). *)
Theorem score_monotone (p p' : BeneficiaryProfile) :
  months_since_claim p <= months_since_claim p' ->
  total_claims p = total_claims p' ->
  age p = age p' ->
  region p = region p' ->
  claim_denial_rate p <= claim_denial_rate p' ->
  clinic_visits p = clinic_visits p' ->
  distance_to_clinic p <= distance_to_clinic p' ->
  premium_amount p <= premium_amount p' ->
  0 <= avg_monthly_balance p' <= avg_monthly_balance p ->
  avg_monthly_balance p <= 100000 ->
  exists r r',
    score p = Ok r /\ score p' = Ok r' /\ (r <=? r')%float = true.
Proof.
  intros Hm Hc Ha Hr Hd Hv Hdist Hp Hb Hb'.
  rewrite !score_raw_score, !raw_score_rules.
  destruct (ratio_test_exact (avg_monthly_balance p) (premium_amount p))
    as (t & -> & Et); [lia|].
  destruct (ratio_test_exact (avg_monthly_balance p') (premium_amount p'))
    as (t' & -> & Et'); [lia|].
  cbn [bind result_monad].
  eexists. eexists. split; [reflexivity|]. split; [reflexivity|].
  apply (proj1 (forallb_forall _ _) all_ordered_runs_in_order
           (later_rules p t (rule_months 0%float (months_since_claim p)),
            later_rules p' t' (rule_months 0%float (months_since_claim p')))).
  apply riskier_runs_reachable; tauto || lia || assumption.
Qed.

Lemma score_monotone_witness :
  exists r r',
    score example2 = Ok r /\ score worst_profile_same_person = Ok r' /\
    (r <=? r')%float = true.
Proof.
  apply (score_monotone example2 worst_profile_same_person);
    simpl; (reflexivity || lia).
Defined.

(** ** The region lookup *)

Lemma dict_get_missing {V : Type} (d : list (string * V)) (key : string) (default : V) :
  ~ In key (map fst d) -> dict_get d key default = default.
Proof.
  induction d as [|[k v] d IH]; simpl; intro Hn; [reflexivity|].
  destruct (String.eqb_spec k key) as [->|_]; [tauto|].
  apply IH. tauto.
Qed.

Lemma dict_get_listed {V : Type} (d : list (string * V)) (key : string) (default : V) :
  In key (map fst d) -> In (key, dict_get d key default) d.
Proof.
  induction d as [|[k v] d IH]; simpl; intro Hin; [destruct Hin|].
  destruct (String.eqb_spec k key) as [->|Hne]; [now left|].
  right. apply IH. destruct Hin; [contradiction | assumption].
Qed.

(** ** Scores when the explainer is silent *)

Lemma all_quiet_scores_moderate :
  forallb quiet_score_is_moderate all_quiet_scores = true.
Proof. vm_compute. reflexivity. Qed.

Lemma quiet_profile_conditions (p : BeneficiaryProfile) :
  risk_factors p = [] ->
  months_since_claim p < 6 /\
  total_claims p <> 0 /\ total_claims p <= 5 /\
  25 <= age p <= 55 /\
  ~ In (region p) [ "Lagos"; "Enugu"; "Kaduna" ]%string /\
  claim_denial_rate p <= 15 /\
  2000 <= avg_monthly_balance p.
Proof.
  intro He.
  assert (Hn : forall f, ~ spec_triggers p f).
  { intros f Hf. apply risk_factors_triggered in Hf. rewrite He in Hf.
    destruct Hf. }
  pose proof (Hn (MonthsWithoutClaims (months_since_claim p))) as H1.
  pose proof (Hn NoClaimsHistory) as H2.
  pose proof (Hn (HighClaimFrequency (total_claims p))) as H3.
  pose proof (Hn (AgeRiskFactor (age p))) as H4.
  pose proof (Hn (HighRiskRegion (region p))) as H5.
  pose proof (Hn (HighDenialRate (claim_denial_rate p))) as H6.
  pose proof (Hn (LowBalance (avg_monthly_balance p))) as H7.
  simpl in H1, H2, H3, H4, H5, H6, H7.
  repeat split; try lia.
  simpl. intros [E|[E|[E|[]]]]; apply H5; rewrite <- E; split; auto.
Qed.

Lemma quiet_region_stage (r : string) :
  ~ In r [ "Lagos"; "Enugu"; "Kaduna" ]%string ->
  exists f, In f (map add [0.12; 0.10; 0.08; 0.06; 0.04; 0.10]%float) /\
            forall s, rule_region s r = f s.
Proof.
  intro Hn. exists (add (dict_get regional_risk r 0.10%float)).
  split; [|reflexivity]. apply in_map.
  unfold regional_risk. simpl in Hn. cbn [dict_get].
  destruct (String.eqb_spec "Lagos" r); [tauto|].
  destruct (String.eqb_spec "Enugu" r); [tauto|].
  destruct (String.eqb_spec "Kaduna" r); [tauto|].
  apply (dict_get_In
           [ ("Kano"%string, 0.12%float); ("Abuja"%string, 0.10%float);
             ("Jos"%string, 0.08%float); ("Ibadan"%string, 0.06%float);
             ("Port Harcourt"%string, 0.04%float) ] r 0.10%float).
Qed.

Lemma quiet_score_reachable (p : BeneficiaryProfile) (r : float) :
  risk_factors p = [] -> score p = Ok r -> In r all_quiet_scores.
Proof.
  intros He Hr. apply quiet_profile_conditions in He.
  destruct He as (Hm & Hc0 & Hc & Ha & Hreg & Hd & Hb).
  rewrite score_raw_score, raw_score_rules in Hr.
  destruct (int_mul_float (avg_monthly_balance p) 0.3%float) as [t|];
    cbn [bind result_monad] in Hr; [|discriminate].
  injection Hr as <-.
  unfold all_quiet_scores.
  apply (in_map (fun risk_score => py_min risk_score 0.95%float)).
  assert (E1 : exists f, In f [keep; add 0.15%float] /\
                         forall s, rule_months s (months_since_claim p) = f s).
  { unfold rule_months. rewrite !Z.geb_leb.
    destruct (Z.leb_spec 12 (months_since_claim p)); [lia|].
    destruct (Z.leb_spec 6 (months_since_claim p)); [lia|].
    destruct (3 <=? months_since_claim p); [pick (add 0.15%float) | pick keep]. }
  assert (E2 : forall s, rule_claims s (total_claims p) = keep s).
  { intro s. unfold rule_claims, keep.
    rewrite (proj2 (Z.eqb_neq _ 0)) by lia. rewrite !Z.gtb_ltb.
    rewrite (proj2 (Z.ltb_ge 10 _)), (proj2 (Z.ltb_ge 5 _)) by lia.
    reflexivity. }
  assert (E3 : forall s, rule_age s (age p) = keep s).
  { intro s. unfold rule_age, keep.
    rewrite (proj2 (Z.ltb_ge _ 25)) by lia. rewrite !Z.gtb_ltb.
    rewrite (proj2 (Z.ltb_ge 65 _)), (proj2 (Z.ltb_ge 55 _)) by lia.
    reflexivity. }
  assert (E5 : forall s, rule_denial s (claim_denial_rate p) = keep s).
  { intro s. unfold rule_denial, keep. rewrite !Z.gtb_ltb.
    rewrite (proj2 (Z.ltb_ge 25 _)), (proj2 (Z.ltb_ge 15 _)) by lia.
    reflexivity. }
  assert (E8 : forall s, rule_balance s (avg_monthly_balance p) = keep s).
  { intro s. rewrite rule_balance_cases.
    rewrite (proj2 (Z.ltb_ge _ 2000)) by lia. reflexivity. }
  destruct E1 as (f1 & I1 & E1).
  destruct (quiet_region_stage (region p) Hreg) as (f4 & I4 & E4).
  destruct (rule_visits_stage (clinic_visits p)) as (f6 & I6 & E6).
  destruct (rule_distance_stage (distance_to_clinic p)) as (f7 & I7 & E7).
  destruct (rule_ratio_stage (premium_amount p) t) as (f9 & I9 & E9).
  unfold later_rules. rewrite E9, E8, E7, E6, E5, E4, E3, E2, E1.
  change (f9 (keep (f7 (f6 (keep (f4 (keep (keep (f1 0%float)))))))))
    with (apply_all [f1; keep; keep; f4; keep; f6; f7; keep; f9] 0%float).
  apply reach_In; [|now left].
  unfold quiet_stages.
  repeat (apply Forall2_cons; [first [assumption | now left]|]).
  apply Forall2_nil.
Qed.

Lemma float_ge_int_decoded (f : float) (z : Z) :
  float_ge_int f z = SF_ge_int (Prim2SF f) z.
Proof. reflexivity. Qed.

(** What [classify] does on any percentage, in terms of its own tests. *)
Lemma classifier_thresholds_general (pct : float) :
  (outcome (classify pct) = "WILL DROPOUT"%string
   <-> float_ge_int pct 50 = true) /\
  (risk_level (classify pct) = "HIGH RISK"%string
   <-> float_ge_int pct 70 = true) /\
  (risk_level (classify pct) = "LOW RISK"%string
   <-> float_ge_int pct 50 = false).
Proof.
  unfold classify.
  destruct (float_ge_int pct 50) eqn:E50.
  - destruct (float_ge_int pct 70) eqn:E70; cbn [outcome risk_level];
      repeat split; intros; try discriminate; reflexivity.
  - assert (E70 : float_ge_int pct 70 = false).
    { destruct (float_ge_int pct 70) eqn:E; [|reflexivity].
      apply (float_ge_int_anti pct 50 70) in E; [congruence | lia]. }
    rewrite E70. cbn [outcome risk_level].
    repeat split; intros; try discriminate; reflexivity.
Qed.

(** X2.  The recommendation box always matches the risk tier, whatever the
    percentage (a NaN included): urgent action with HIGH RISK, proactive
    intervention with MEDIUM RISK, standard monitoring with LOW RISK. *)
Theorem recommendation_matches_tier (dropout_percentage : float) :
  (risk_level (classify dropout_percentage) = "HIGH RISK"%string /\
   run (show_recommendation dropout_percentage)
   = ([StError UrgentActionRequired], Ok tt)) \/
  (risk_level (classify dropout_percentage) = "MEDIUM RISK"%string /\
   run (show_recommendation dropout_percentage)
   = ([StWarning ProactiveIntervention], Ok tt)) \/
  (risk_level (classify dropout_percentage) = "LOW RISK"%string /\
   run (show_recommendation dropout_percentage)
   = ([StSuccess StandardMonitoring], Ok tt)).
Proof.
  unfold classify, show_recommendation, run.
  destruct (float_ge_int dropout_percentage 70) eqn:E70.
  - rewrite (float_ge_int_anti dropout_percentage 50 70 ltac:(lia) E70).
    left. split; reflexivity.
  - destruct (float_ge_int dropout_percentage 50).
    + right. left. split; reflexivity.
    + right. right. split; reflexivity.
Qed.

(** X4.  A region that is not a key of [regional_risk] (any other
    spelling included) is scored with the default weight 0.10, which is
    Abuja's: the call returns what it returns for the same profile in
    Abuja. *)
Theorem unlisted_region_scores_as_abuja (p : BeneficiaryProfile) :
  ~ In (region p) region_options ->
  score p = score (with_region "Abuja" p).
Proof.
  intro Hn.
  assert (E : dict_get regional_risk (region p) 0.10%float = 0.10%float)
    by (apply dict_get_missing; exact Hn).
  rewrite !score_raw_score, !raw_score_rules.
  unfold later_rules, rule_region.
  cbn [with_region region avg_monthly_balance premium_amount total_claims age
       claim_denial_rate clinic_visits distance_to_clinic months_since_claim].
  rewrite E. reflexivity.
Qed.

Lemma unlisted_region_scores_as_abuja_witness :
  ~ In "lagos"%string region_options /\
  score unlisted_region_profile = score (with_region "Abuja" unlisted_region_profile).
Proof.
  assert (Hn : ~ In (region unlisted_region_profile) region_options).
  { simpl. intros [E|[E|[E|[E|[E|[E|[E|[E|[]]]]]]]]]; discriminate E. }
  split; [exact Hn|].
  exact (unlisted_region_scores_as_abuja unlisted_region_profile Hn).
Defined.

(** X5.  Every region the form can hand over is a key of [regional_risk]:
    through the page the lookup returns the weight listed for that region
    and never falls back on the default. *)
Theorem page_region_weight_is_listed (f : Form) :
  in_widget_ranges f ->
  In (region (profile f),
      dict_get regional_risk (region (profile f)) 0.10%float)
     regional_risk.
Proof.
  intros (_ & Hreg & _). apply dict_get_listed. exact Hreg.
Qed.

Lemma page_region_weight_is_listed_witness :
  in_widget_ranges example_form /\
  In (region (profile example_form),
      dict_get regional_risk (region (profile example_form)) 0.10%float)
     regional_risk.
Proof.
  assert (Hw : in_widget_ranges example_form).
  { unfold in_widget_ranges, in_domain. simpl. repeat split; try lia; auto. }
  split; [exact Hw | exact (page_region_weight_is_listed example_form Hw)].
Defined.

(** X6.  When the explainer lists no factor, the score is at most 0.53 and
    the tier is never HIGH RISK: an urgent-action result always comes with
    at least one factor line.  (The bound is reached: [quiet_dropout_profile]
    lists no factor, scores 0.53 and is labelled WILL DROPOUT.) *)
Theorem silent_explainer_never_high (p : BeneficiaryProfile) :
  risk_factors p = [] ->
  0 <= avg_monthly_balance p <= 100000 ->
  exists r,
    score p = Ok r /\
    (r <=? 0.53)%float = true /\
    risk_level (classify (r * 100)%float) <> "HIGH RISK"%string.
Proof.
  intros He Hb.
  destruct (score_total p Hb) as [r Hr]. exists r. split; [exact Hr|].
  pose proof (proj1 (forallb_forall _ _) all_quiet_scores_moderate r
                (quiet_score_reachable p r He Hr)) as Hq.
  unfold quiet_score_is_moderate in Hq.
  apply andb_true_iff in Hq. destruct Hq as [Hle H70].
  apply negb_true_iff in H70. split; [exact Hle|].
  intro Hhigh. apply classifier_thresholds_general in Hhigh. congruence.
Qed.

Lemma silent_explainer_never_high_witness :
  risk_factors quiet_dropout_profile = [] /\
  score quiet_dropout_profile = Ok 0.53%float /\
  outcome (classify (0.53 * 100)%float) = "WILL DROPOUT"%string /\
  exists r,
    score quiet_dropout_profile = Ok r /\
    (r <=? 0.53)%float = true /\
    risk_level (classify (r * 100)%float) <> "HIGH RISK"%string.
Proof.
  split; [reflexivity|]. split; [reflexivity|]. split; [reflexivity|].
  apply (silent_explainer_never_high quiet_dropout_profile);
    [reflexivity | simpl; lia].
Defined.

(** When each rule misses. *)
Lemma rule_months_misses (m : Z) :
  rule_misses (fun s => rule_months s m) <-> m < 3.
Proof.
  unfold rule_misses, rule_months. rewrite !Z.geb_leb. split.
  - intro Hmiss. specialize (Hmiss 0%float). revert Hmiss.
    destruct (Z.leb_spec 12 m); [intro Hzero; float_neq Hzero|].
    destruct (Z.leb_spec 6 m); [intro Hzero; float_neq Hzero|].
    destruct (Z.leb_spec 3 m); [intro Hzero; float_neq Hzero|].
    lia.
  - intros Hm s.
    destruct (Z.leb_spec 12 m); [lia|].
    destruct (Z.leb_spec 6 m); [lia|].
    destruct (Z.leb_spec 3 m); [lia|]. reflexivity.
Qed.

Lemma rule_claims_misses (c : Z) :
  rule_misses (fun s => rule_claims s c) <-> c <> 0 /\ c <= 5.
Proof.
  unfold rule_misses, rule_claims. rewrite !Z.gtb_ltb. split.
  - intro Hmiss. specialize (Hmiss 0%float). revert Hmiss.
    destruct (Z.eqb_spec c 0); [intro Hzero; float_neq Hzero|].
    destruct (Z.ltb_spec 10 c); [intro Hzero; float_neq Hzero|].
    destruct (Z.ltb_spec 5 c); [intro Hzero; float_neq Hzero|].
    lia.
  - intros Hc s.
    destruct (Z.eqb_spec c 0); [lia|].
    destruct (Z.ltb_spec 10 c); [lia|].
    destruct (Z.ltb_spec 5 c); [lia|]. reflexivity.
Qed.

Lemma rule_age_misses (a : Z) :
  rule_misses (fun s => rule_age s a) <-> 25 <= a <= 55.
Proof.
  unfold rule_misses, rule_age. rewrite !Z.gtb_ltb. split.
  - intro Hmiss. specialize (Hmiss 0%float). revert Hmiss.
    destruct (Z.ltb_spec a 25); [intro Hzero; float_neq Hzero|].
    destruct (Z.ltb_spec 65 a); [intro Hzero; float_neq Hzero|].
    destruct (Z.ltb_spec 55 a); [intro Hzero; float_neq Hzero|].
    lia.
  - intros Ha s.
    destruct (Z.ltb_spec a 25); [lia|].
    destruct (Z.ltb_spec 65 a); [lia|].
    destruct (Z.ltb_spec 55 a); [lia|]. reflexivity.
Qed.

Lemma rule_denial_misses (d : Z) :
  rule_misses (fun s => rule_denial s d) <-> d <= 15.
Proof.
  unfold rule_misses, rule_denial. rewrite !Z.gtb_ltb. split.
  - intro Hmiss. specialize (Hmiss 0%float). revert Hmiss.
    destruct (Z.ltb_spec 25 d); [intro Hzero; float_neq Hzero|].
    destruct (Z.ltb_spec 15 d); [intro Hzero; float_neq Hzero|].
    lia.
  - intros Hd s.
    destruct (Z.ltb_spec 25 d); [lia|].
    destruct (Z.ltb_spec 15 d); [lia|]. reflexivity.
Qed.

Lemma rule_balance_misses (b : Z) :
  rule_misses (fun s => rule_balance s b) <-> 2000 <= b.
Proof.
  unfold rule_misses. split.
  - intro Hmiss. specialize (Hmiss 0%float). revert Hmiss.
    rewrite rule_balance_cases.
    destruct (Z.ltb_spec b 2000); [intro Hzero; float_neq Hzero|].
    lia.
  - intros Hb s. rewrite rule_balance_cases.
    now rewrite (proj2 (Z.ltb_ge b 2000) Hb).
Qed.

Lemma rule_region_never_misses (r : string) :
  ~ rule_misses (fun s => rule_region s r).
Proof.
  intro Hmiss. specialize (Hmiss 0%float). revert Hmiss.
  unfold rule_region. intro Hzero.
  pose proof (dict_get_In regional_risk r 0.10%float) as Hin.
  remember (dict_get regional_risk r 0.10%float) as w eqn:Ew. clear Ew.
  simpl in Hin.
  decompose [or] Hin; try contradiction; subst w; float_neq Hzero.
Qed.

(** X7.  For the claims, age, denial and balance rules the explainer and the
    scorer use the same cut: a line of that rule is listed exactly when the
    scoring rule adds to [risk_score].  The months line is stricter than its
    rule (listed from 6 months, scored from 3), and the region rule never
    misses although only three regions are listed. *)
Theorem explainer_agrees_with_scorer (p : BeneficiaryProfile) :
  ((In NoClaimsHistory (risk_factors p) \/
    In (HighClaimFrequency (total_claims p)) (risk_factors p))
   <-> ~ rule_misses (fun s => rule_claims s (total_claims p))) /\
  (In (AgeRiskFactor (age p)) (risk_factors p)
   <-> ~ rule_misses (fun s => rule_age s (age p))) /\
  (In (HighDenialRate (claim_denial_rate p)) (risk_factors p)
   <-> ~ rule_misses (fun s => rule_denial s (claim_denial_rate p))) /\
  (In (LowBalance (avg_monthly_balance p)) (risk_factors p)
   <-> ~ rule_misses (fun s => rule_balance s (avg_monthly_balance p))) /\
  (In (MonthsWithoutClaims (months_since_claim p)) (risk_factors p)
   <-> ~ rule_misses (fun s => rule_months s (months_since_claim p))
       /\ ~ (3 <= months_since_claim p < 6)) /\
  ~ rule_misses (fun s => rule_region s (region p)).
Proof.
  rewrite !risk_factors_triggered. cbn [spec_triggers].
  rewrite rule_claims_misses, rule_age_misses, rule_denial_misses,
    rule_balance_misses, rule_months_misses.
  split; [lia|]. split; [lia|]. split; [lia|]. split; [lia|].
  split; [lia|]. apply rule_region_never_misses.
Qed.

(** ** The float score against exact decimal arithmetic *)

(** A non-negative float whose tenths are a whole number [k] of units is
    printed as [k], a point and a zero. *)
Lemma format_1f_whole (f : float) (k : Z) :
  SF_is_negative (Prim2SF f) = false ->
  tenths_1f f = Some (k * 10) ->
  format_1f f = (decimal k ++ ".0")%string.
Proof.
  intros Hs Ht. unfold format_1f, sign_1f. rewrite Ht, Hs.
  rewrite Z.div_mul, Z.mod_mul by lia. reflexivity.
Qed.

Lemma all_pointed_scores_close :
  forallb score_close_to_points all_pointed_scores = true.
Proof. vm_compute. reflexivity. Qed.

(** Rounding to the nearest integer, when the quotient is within a half of
    an integer [K]. *)
Lemma round_half_even_close (n d K : Z) :
  2 * Z.abs (n - K * d) < d -> round_half_even n d = K.
Proof.
  intro H. unfold round_half_even. cbv zeta.
  destruct (Z_le_gt_dec (K * d) n) as [Hle|Hgt].
  - assert (Hq : n / d = K)
      by (symmetry; apply (Z.div_unique n d K (n - K * d)); lia).
    assert (Hr : n mod d = n - K * d)
      by (symmetry; apply (Z.mod_unique n d K (n - K * d)); lia).
    rewrite Hq, Hr. now rewrite (proj2 (Z.ltb_lt _ _)) by lia.
  - assert (Hq : n / d = K - 1)
      by (symmetry; apply (Z.div_unique n d (K - 1) (n - (K - 1) * d)); lia).
    assert (Hr : n mod d = n - (K - 1) * d)
      by (symmetry; apply (Z.mod_unique n d (K - 1) (n - (K - 1) * d)); lia).
    rewrite Hq, Hr.
    rewrite (proj2 (Z.ltb_ge _ _)) by lia.
    rewrite (proj2 (Z.ltb_lt _ _)) by lia. lia.
Qed.

(** A positive float within half a tenth of [k] compares with an integer
    other than [k] as [k] does. *)
Lemma close_float_ge_int (m : positive) (e k z : Z) :
  e < 0 ->
  2 * Z.abs (Z.pos m * 10 - k * 10 * 2 ^ (- e)) < 2 ^ (- e) ->
  k <> z ->
  SF_ge_int (S754_finite false m e) z = (z <=? k).
Proof.
  intros He Hclose Hne.
  assert (Hpos : 0 < 2 ^ (- e)) by (apply Z.pow_pos_nonneg; lia).
  unfold SF_ge_int, SF_compare_int. cbv beta iota zeta.
  rewrite (proj2 (Z.leb_gt 0 e)) by lia.
  remember (2 ^ (- e)) as scale eqn:Escale. clear Escale.
  destruct (Z.leb_spec z k) as [Hzk|Hzk].
  - assert (Hs : (z + 1) * scale <= k * scale)
      by (apply Z.mul_le_mono_nonneg_r; lia).
    destruct (Z.compare_spec (Z.pos m) (z * scale)); try reflexivity; lia.
  - assert (Hs : (k + 1) * scale <= z * scale)
      by (apply Z.mul_le_mono_nonneg_r; lia).
    destruct (Z.compare_spec (Z.pos m) (z * scale)); try reflexivity; lia.
Qed.

Lemma score_close_to_points_spec (raw : float) (points : Z) :
  score_close_to_points (raw, points) = true ->
  let r := py_min raw 0.95%float in
  let dropout_percentage := (r * 100)%float in
  let k := Z.min points 95 in
  SF_is_negative (Prim2SF dropout_percentage) = false /\
  tenths_1f dropout_percentage = Some (k * 10) /\
  float_ge_int dropout_percentage 50 = (0.5 <=? r)%float /\
  float_ge_int dropout_percentage 70 = (0.7 <=? r)%float /\
  (r <? 0.5)%float = negb (0.5 <=? r)%float /\
  (k <> 50 -> float_ge_int dropout_percentage 50 = (50 <=? k)) /\
  (k <> 70 -> float_ge_int dropout_percentage 70 = (70 <=? k)).
Proof.
  intro H. cbv zeta.
  unfold score_close_to_points in H. cbn [fst snd] in H. cbv zeta in H.
  rewrite !float_ge_int_decoded. unfold tenths_1f.
  destruct (Prim2SF (py_min raw 0.95%float * 100)%float) as [ | | |[|] m e];
    try discriminate H.
  set (k := Z.min points 95) in *.
  apply andb_true_iff in H. destruct H as [H Hlt].
  apply andb_true_iff in H. destruct H as [H H70].
  apply andb_true_iff in H. destruct H as [H H50].
  apply andb_true_iff in H. destruct H as [He Hclose].
  apply Z.ltb_lt in He, Hclose. apply eqb_prop in H50, H70, Hlt.
  split; [reflexivity|].
  split.
  { unfold SF_tenths. rewrite (proj2 (Z.leb_gt 0 e)) by lia.
    f_equal. apply round_half_even_close. exact Hclose. }
  assert (G50 : k <> 50 -> SF_ge_int (S754_finite false m e) 50 = (50 <=? k))
    by (intro; now apply close_float_ge_int).
  assert (G70 : k <> 70 -> SF_ge_int (S754_finite false m e) 70 = (70 <=? k))
    by (intro; now apply close_float_ge_int).
  split.
  { rewrite H50. destruct (Z.eqb_spec k 50) as [_|Hne];
      [reflexivity | now apply G50]. }
  split.
  { rewrite H70. destruct (Z.eqb_spec k 70) as [_|Hne];
      [reflexivity | now apply G70]. }
  split; [exact Hlt|]. split; assumption.
Qed.

Lemma pointed_months (m : Z) :
  exists F, In F (nth 0 pointed_stages []) /\
            forall st, (rule_months (fst st) m, snd st + points_months m) = F st.
Proof.
  unfold rule_months, points_months.
  destruct (m >=? 12); [pick_points (add_points 0.45%float 45)|].
  destruct (m >=? 6); [pick_points (add_points 0.30%float 30)|].
  destruct (m >=? 3);
    [pick_points (add_points 0.15%float 15) | pick_points keep_points].
Qed.

Lemma pointed_claims (c : Z) :
  exists F, In F (nth 1 pointed_stages []) /\
            forall st, (rule_claims (fst st) c, snd st + points_claims c) = F st.
Proof.
  unfold rule_claims, points_claims.
  destruct (c =? 0); [pick_points (add_points 0.15%float 15)|].
  destruct (c >? 10); [pick_points (add_points 0.20%float 20)|].
  destruct (c >? 5);
    [pick_points (add_points 0.10%float 10) | pick_points keep_points].
Qed.

Lemma pointed_age (a : Z) :
  exists F, In F (nth 2 pointed_stages []) /\
            forall st, (rule_age (fst st) a, snd st + points_age a) = F st.
Proof.
  unfold rule_age, points_age.
  destruct (a <? 25); [pick_points (add_points 0.12%float 12)|].
  destruct (a >? 65); [pick_points (add_points 0.15%float 15)|].
  destruct (a >? 55);
    [pick_points (add_points 0.08%float 8) | pick_points keep_points].
Qed.

Lemma pointed_region (r : string) :
  exists F, In F (nth 3 pointed_stages []) /\
            forall st, (rule_region (fst st) r, snd st + points_region r) = F st.
Proof.
  unfold rule_region, points_region, regional_risk, regional_points.
  cbn [dict_get].
  destruct (String.eqb "Lagos" r); [pick_points (add_points 0.18%float 18)|].
  destruct (String.eqb "Enugu" r); [pick_points (add_points 0.16%float 16)|].
  destruct (String.eqb "Kaduna" r); [pick_points (add_points 0.14%float 14)|].
  destruct (String.eqb "Kano" r); [pick_points (add_points 0.12%float 12)|].
  destruct (String.eqb "Abuja" r); [pick_points (add_points 0.10%float 10)|].
  destruct (String.eqb "Jos" r); [pick_points (add_points 0.08%float 8)|].
  destruct (String.eqb "Ibadan" r); [pick_points (add_points 0.06%float 6)|].
  destruct (String.eqb "Port Harcourt" r);
    [pick_points (add_points 0.04%float 4)|].
  pick_points (add_points 0.10%float 10).
Qed.

Lemma pointed_denial (d : Z) :
  exists F, In F (nth 4 pointed_stages []) /\
            forall st, (rule_denial (fst st) d, snd st + points_denial d) = F st.
Proof.
  unfold rule_denial, points_denial.
  destruct (d >? 25); [pick_points (add_points 0.12%float 12)|].
  destruct (d >? 15);
    [pick_points (add_points 0.08%float 8) | pick_points keep_points].
Qed.

Lemma pointed_visits (v : Z) :
  exists F, In F (nth 5 pointed_stages []) /\
            forall st, (rule_visits (fst st) v, snd st + points_visits v) = F st.
Proof.
  unfold rule_visits, points_visits.
  destruct (v <? 2); [pick_points (add_points 0.10%float 10)|].
  destruct (v >? 15);
    [pick_points (add_points 0.05%float 5) | pick_points keep_points].
Qed.

Lemma pointed_distance (d : Z) :
  exists F, In F (nth 6 pointed_stages []) /\
            forall st, (rule_distance (fst st) d, snd st + points_distance d) = F st.
Proof.
  unfold rule_distance, points_distance.
  destruct (d >? 50);
    [pick_points (add_points 0.08%float 8) | pick_points keep_points].
Qed.

Lemma pointed_balance (b : Z) :
  exists F, In F (nth 7 pointed_stages []) /\
            forall st, (rule_balance (fst st) b, snd st + points_balance b) = F st.
Proof.
  unfold points_balance.
  destruct (Z.ltb_spec b 2000) as [H|H].
  - exists (add_points 0.10%float 10). split; [in_list|].
    intros [s k]. rewrite rule_balance_cases.
    now rewrite (proj2 (Z.ltb_lt b 2000) H).
  - exists keep_points. split; [in_list|].
    intros [s k]. rewrite rule_balance_cases.
    rewrite (proj2 (Z.ltb_ge b 2000) H), (proj2 (Z.ltb_ge b 1000)) by lia.
    cbn [fst snd]. now rewrite Z.add_0_r.
Qed.

Lemma pointed_ratio (premium : Z) (t : float) :
  exists F, In F (nth 8 pointed_stages []) /\
            forall st, (rule_ratio (fst st) premium t,
                        snd st + (if int_gt_float premium t then 8 else 0))
                       = F st.
Proof.
  unfold rule_ratio.
  destruct (int_gt_float premium t);
    [pick_points (add_points 0.08%float 8) | pick_points keep_points].
Qed.

Lemma pointed_score_reachable (p : BeneficiaryProfile) (t : float) :
  In (later_rules p t (rule_months 0%float (months_since_claim p)),
      path_points p t)
     all_pointed_scores.
Proof.
  destruct (pointed_months (months_since_claim p)) as (F1 & I1 & E1).
  destruct (pointed_claims (total_claims p)) as (F2 & I2 & E2).
  destruct (pointed_age (age p)) as (F3 & I3 & E3).
  destruct (pointed_region (region p)) as (F4 & I4 & E4).
  destruct (pointed_denial (claim_denial_rate p)) as (F5 & I5 & E5).
  destruct (pointed_visits (clinic_visits p)) as (F6 & I6 & E6).
  destruct (pointed_distance (distance_to_clinic p)) as (F7 & I7 & E7).
  destruct (pointed_balance (avg_monthly_balance p)) as (F8 & I8 & E8).
  destruct (pointed_ratio (premium_amount p) t) as (F9 & I9 & E9).
  pose proof (E1 (0%float, 0)) as H1. cbn [fst snd] in H1.
  chain E2 H1 H2. chain E3 H2 H3. chain E4 H3 H4.
  chain E5 H4 H5. chain E6 H5 H6. chain E7 H6 H7.
  chain E8 H7 H8. chain E9 H8 H9.
  unfold later_rules, path_points.
  rewrite <- (Z.add_0_l (points_months (months_since_claim p))).
  rewrite H9.
  change (F9 (F8 (F7 (F6 (F5 (F4 (F3 (F2 (F1 (0%float, 0))))))))))
    with (apply_all [F1; F2; F3; F4; F5; F6; F7; F8; F9] (0%float, 0)).
  unfold all_pointed_scores. apply reach_In; [|now left].
  unfold pointed_stages in *. cbn [nth] in *.
  repeat (apply Forall2_cons; [assumption|]). apply Forall2_nil.
Qed.

Lemma path_points_exact (p : BeneficiaryProfile) (t : float) :
  int_gt_float (premium_amount p) t
  = (3 * avg_monthly_balance p <? 10 * premium_amount p) ->
  path_points p t = exact_points p.
Proof.
  intro Et. unfold path_points, exact_points, points_ratio. now rewrite Et.
Qed.

(** What the enumeration says of the score of any profile. *)
Lemma score_facts (p : BeneficiaryProfile) (t : float) :
  let raw := later_rules p t (rule_months 0%float (months_since_claim p)) in
  let r := py_min raw 0.95%float in
  let dropout_percentage := (r * 100)%float in
  let k := Z.min (path_points p t) 95 in
  SF_is_negative (Prim2SF dropout_percentage) = false /\
  tenths_1f dropout_percentage = Some (k * 10) /\
  float_ge_int dropout_percentage 50 = (0.5 <=? r)%float /\
  float_ge_int dropout_percentage 70 = (0.7 <=? r)%float /\
  (r <? 0.5)%float = negb (0.5 <=? r)%float /\
  (k <> 50 -> float_ge_int dropout_percentage 50 = (50 <=? k)) /\
  (k <> 70 -> float_ge_int dropout_percentage 70 = (70 <=? k)).
Proof.
  apply score_close_to_points_spec.
  exact (proj1 (forallb_forall _ _) all_pointed_scores_close _
           (pointed_score_reachable p t)).
Qed.

(** X3.  On every probability the scorer returns, the thresholds on the
    percentage are thresholds on the probability: the outcome is WILL
    DROPOUT exactly from 0.5 on, the tier HIGH RISK exactly from 0.7 on and
    LOW RISK exactly below 0.5; multiplying by 100 moves no score across a
    threshold. *)
Theorem thresholds_on_probability (p : BeneficiaryProfile) (r : float) :
  score p = Ok r ->
  (outcome (classify (r * 100)%float) = "WILL DROPOUT"%string
   <-> (0.5 <=? r)%float = true) /\
  (risk_level (classify (r * 100)%float) = "HIGH RISK"%string
   <-> (0.7 <=? r)%float = true) /\
  (risk_level (classify (r * 100)%float) = "LOW RISK"%string
   <-> (r <? 0.5)%float = true).
Proof.
  rewrite score_raw_score, raw_score_rules. intro Hr.
  destruct (int_mul_float (avg_monthly_balance p) 0.3%float) as [t|];
    cbn [bind result_monad] in Hr; [|discriminate Hr].
  injection Hr as <-.
  pose proof (score_facts p t) as F. cbv zeta in F.
  destruct F as (_ & _ & H50 & H70 & Hlt & _).
  rewrite <- H50, <- H70, Hlt, <- H50, negb_true_iff.
  apply classifier_thresholds_general.
Qed.

Lemma thresholds_on_probability_witness :
  score example1 = Ok 0.78%float /\
  (outcome (classify (0.78 * 100)%float) = "WILL DROPOUT"%string
   <-> (0.5 <=? 0.78)%float = true) /\
  (risk_level (classify (0.78 * 100)%float) = "HIGH RISK"%string
   <-> (0.7 <=? 0.78)%float = true) /\
  (risk_level (classify (0.78 * 100)%float) = "LOW RISK"%string
   <-> (0.78 <? 0.5)%float = true).
Proof.
  split; [reflexivity|].
  exact (thresholds_on_probability example1 0.78%float eq_refl).
Defined.

(** X8.  The percentage the panel prints (one decimal, line 170) is the
    exact decimal sum of the weights, capped at 95: float rounding never
    shows in the printed number. *)
Theorem printed_percentage_is_exact (p : BeneficiaryProfile) :
  0 <= avg_monthly_balance p <= 100000 ->
  exists r,
    score p = Ok r /\
    format_1f (r * 100)%float = (decimal (exact_percentage p) ++ ".0")%string.
Proof.
  intro Hb. rewrite score_raw_score, raw_score_rules.
  destruct (ratio_test_exact (avg_monthly_balance p) (premium_amount p) Hb)
    as (t & -> & Et).
  cbn [bind result_monad]. eexists. split; [reflexivity|].
  pose proof (score_facts p t) as F. cbv zeta in F.
  destruct F as (Hs & Ht & _).
  rewrite (path_points_exact p t Et) in Ht. fold (exact_percentage p) in Ht.
  now apply format_1f_whole.
Qed.

Lemma printed_percentage_is_exact_witness :
  exact_percentage boundary_profile = 70 /\
  score boundary_profile = Ok 0.69999999999999984%float /\
  risk_level (classify (0.69999999999999984 * 100)%float) = "MEDIUM RISK"%string /\
  exists r,
    score boundary_profile = Ok r /\
    format_1f (r * 100)%float = "70.0"%string.
Proof.
  split; [reflexivity|]. split; [reflexivity|]. split; [reflexivity|].
  apply (printed_percentage_is_exact boundary_profile). simpl. lia.
Defined.

(** X9.  Off the thresholds the float classification is the exact one: when
    the exact percentage is not 50 the outcome is WILL DROPOUT exactly when
    it is at least 50, and when it is not 70 the tier is HIGH RISK exactly
    when it is at least 70.  (On a threshold the float sum can fall just
    below it: [boundary_profile] sums to exactly 70 and is MEDIUM RISK.) *)
Theorem classification_exact_off_thresholds (p : BeneficiaryProfile) :
  0 <= avg_monthly_balance p <= 100000 ->
  exists r,
    score p = Ok r /\
    (exact_percentage p <> 50 ->
     (outcome (classify (r * 100)%float) = "WILL DROPOUT"%string
      <-> 50 <= exact_percentage p)) /\
    (exact_percentage p <> 70 ->
     (risk_level (classify (r * 100)%float) = "HIGH RISK"%string
      <-> 70 <= exact_percentage p)).
Proof.
  intro Hb. rewrite score_raw_score, raw_score_rules.
  destruct (ratio_test_exact (avg_monthly_balance p) (premium_amount p) Hb)
    as (t & -> & Et).
  cbn [bind result_monad]. eexists. split; [reflexivity|].
  pose proof (score_facts p t) as F. cbv zeta in F.
  destruct F as (_ & _ & _ & _ & _ & H50 & H70).
  rewrite (path_points_exact p t Et) in H50, H70.
  fold (exact_percentage p) in H50, H70.
  destruct (classifier_thresholds_general
              (py_min (later_rules p t (rule_months 0%float (months_since_claim p)))
                      0.95%float * 100)%float) as (C50 & C70 & _).
  split.
  - intro Hne. rewrite C50, (H50 Hne). apply Z.leb_le.
  - intro Hne. rewrite C70, (H70 Hne). apply Z.leb_le.
Qed.

Lemma classification_exact_off_thresholds_witness :
  exact_percentage example1 = 78 /\
  exists r,
    score example1 = Ok r /\
    (exact_percentage example1 <> 50 ->
     (outcome (classify (r * 100)%float) = "WILL DROPOUT"%string
      <-> 50 <= exact_percentage example1)) /\
    (exact_percentage example1 <> 70 ->
     (risk_level (classify (r * 100)%float) = "HIGH RISK"%string
      <-> 70 <= exact_percentage example1)).
Proof.
  split; [reflexivity|].
  apply (classification_exact_off_thresholds example1). simpl. lia.
Defined.
